(** * The IP registration workflow of [useRegisterIPAgent]

    A shallow embedding of the React hook [useRegisterIPAgent]
    (src/next.config.mjs, lines 24-260): the state object [registerState],
    the network guard [ensureAeneid], the pipeline [executeRegister] and
    [resetRegister].

    The hook sequences calls to collaborators that live outside the file
    (the wallet, the image compressor, the IPFS helpers, the hashing helpers
    and the Story Protocol client).  They are taken as parameters, gathered
    in the record [Env]: each one is a function from its argument to the
    outcome of the call, which either resolves with a value or rejects with
    a thrown value.  The embedding threads the state object and a log of
    what the run did through a small monad whose computations complete
    normally, by [return], or by [throw].

    Calls to [console] are left out: they neither change the state nor
    complete abruptly. *)

From Stdlib Require Import String Ascii List ZArith Bool Lia.
Import ListNotations.

Open Scope string_scope.
Open Scope Z_scope.

(** ** JavaScript values that the workflow inspects *)

(** A JavaScript string is kept as its UTF-8 text, one [ascii] per byte.
    The texts the program searches for ([ipfs://], [0x], [execution
    reverted]) are ASCII, so [startsWith] and [includes] may compare bytes;
    [length] counts UTF-16 code units, not bytes: see [jsLength]. *)

(** The UTF-16 code units that the character starting at a byte of UTF-8
    text takes: one for a byte below 128, none for a continuation byte
    (128-191), one for the first byte of a two- or three-byte character
    (192-239), two (a surrogate pair) for the first byte of a four-byte
    character (240 and above). *)
Definition utf16Units (c : ascii) : nat :=
  let n := nat_of_ascii c in
  if (n <? 128)%nat then 1%nat
  else if (n <? 192)%nat then 0%nat
  else if (n <? 240)%nat then 1%nat
  else 2%nat.

(** [s.length]: the number of UTF-16 code units of [s]. *)
Fixpoint jsLength (s : string) : nat :=
  match s with
  | EmptyString => 0%nat
  | String c rest => (utf16Units c + jsLength rest)%nat
  end.

(** The line feed character of the template literal at lines 203-209. *)
Definition LF : string := String (ascii_of_nat 10) EmptyString.

(** [String.prototype.startsWith]. *)
Definition startsWith (s searchString : string) : bool :=
  String.prefix searchString s.

(** [String.prototype.includes]: [searchString] occurs in [s] at some
    position. *)
Fixpoint includes (s searchString : string) : bool :=
  if String.prefix searchString s then true
  else match s with
       | EmptyString => false
       | String _ rest => includes rest searchString
       end.

(** Truthiness of a string: every string but the empty one. *)
Definition truthy (s : string) : bool :=
  match s with EmptyString => false | String _ _ => true end.

(** [a || b] on strings. *)
Definition orElse (a b : string) : string := if truthy a then a else b.

(** [a || b] where either side may be [undefined] ([None]). *)
Definition orElseOpt (a b : option string) : option string :=
  match a with
  | Some s => if truthy s then a else b
  | None => b
  end.

(** What a [catch] clause can receive.  [catch (error: any)] does not
    restrict it to [Error] instances, and both handlers of the source guard
    for that ([error?.message], [contractError.message?.includes]). *)
Inductive Thrown : Type :=
  | TError (name message : string)   (* an Error object *)
  | TString (s : string)             (* a thrown string *)
  | TNull
  | TUndefined.

(** [new Error(message)]. *)
Definition newError (message : string) : Thrown := TError "Error" message.

(** [String(error)]; for an Error object this is [Error.prototype.toString]. *)
Definition toString (e : Thrown) : string :=
  match e with
  | TError name message =>
      if truthy name
      then if truthy message then name ++ ": " ++ message else name
      else message
  | TString s => s
  | TNull => "null"
  | TUndefined => "undefined"
  end.

(** [error?.message]: [None] stands for [undefined]. *)
Definition messageOf (e : Thrown) : option string :=
  match e with
  | TError _ message => Some message
  | _ => None
  end.

(** [error?.message || String(error)] (line 242). *)
Definition describe (e : Thrown) : string :=
  match messageOf e with
  | Some m => if truthy m then m else toString e
  | None => toString e
  end.

(** ** Data model *)

(** The stage tags of [RegisterState.status]. *)
Inductive Status : Type :=
  | Idle | Compressing | UploadingImage | CreatingMetadata
  | UploadingMetadata | Minting | Success | Error.

(** The tag as the source spells it. *)
Definition statusTag (s : Status) : string :=
  match s with
  | Idle => "idle"
  | Compressing => "compressing"
  | UploadingImage => "uploading-image"
  | CreatingMetadata => "creating-metadata"
  | UploadingMetadata => "uploading-metadata"
  | Minting => "minting"
  | Success => "success"
  | Error => "error"
  end.

(** [RegisterState].  [error] holds [null] ([TNull]) or whatever the
    top-level handler caught; [ipId] and [txHash] are optional fields,
    [None] when the object does not carry them. *)
Record RegisterState : Type := mkState {
  status : Status;
  progress : Z;
  error : Thrown;
  ipId : option string;
  txHash : option string
}.

(** [{ status, progress, error: null }]: an object literal without the two
    optional fields (lines 30-34, 60-64, 248-252). *)
Definition plainState (s : Status) (p : Z) : RegisterState :=
  mkState s p TNull None None.

(** The initial value given to [useState] (lines 30-34). *)
Definition initialState : RegisterState := plainState Idle 0.

(** [prev => ({ ...prev, status, progress })] (lines 69-73 and alike). *)
Definition withStage (s : Status) (p : Z) (prev : RegisterState)
  : RegisterState :=
  mkState s p (error prev) (ipId prev) (txHash prev).

(** [prev => ({ ...prev, status: 'error', error })] (lines 234-238). *)
Definition withError (e : Thrown) (prev : RegisterState) : RegisterState :=
  mkState Error (progress prev) e (ipId prev) (txHash prev).

(** [RegisterIntent], as far as the hook reads it. *)
Record RegisterIntent : Type := mkIntent {
  title : option string;
  prompt : option string
}.

(** A [File]: its name, its MIME type and its bytes. *)
Record File : Type := mkFile {
  fileName : string;
  fileType : string;
  fileBytes : list Byte.byte
}.

(** The answer of [uploadFile] and [uploadJSON]: [{ cid, url }], either of
    which may be missing. *)
Record Upload : Type := mkUpload {
  cid : option string;
  url : option string
}.

Record Creator : Type := mkCreator {
  creatorName : string;
  creatorAddress : string;
  contributionPercent : Z
}.

Record AiMetadata : Type := mkAiMetadata {
  aiPrompt : string;
  generator : string;
  model : string
}.

(** The object built at lines 88-102. *)
Record IpMetadata : Type := mkIpMetadata {
  ipTitle : string;
  ipDescription : string;
  image : string;
  imageHash : string;
  mediaUrl : string;
  mediaHash : string;
  mediaType : string;
  creators : list Creator;
  aiMetadata : option AiMetadata
}.

(** The object built at lines 117-123; an attribute is a pair
    [(trait_type, value)]. *)
Record NftMetadata : Type := mkNftMetadata {
  nftName : string;
  nftDescription : string;
  nftImage : string;
  nftIpMetadataURI : string;
  attributes : list (string * string)
}.

(** What [uploadJSON] and [keccakOfJson] are called with. *)
Inductive Json : Type :=
  | JIp (m : IpMetadata)
  | JNft (m : NftMetadata).

(** The argument of [client.ipAsset.mintAndRegisterIp] (lines 161-171). *)
Record MintRequest : Type := mkMintRequest {
  spgNftContract : string;
  recipient : option string;
  ipMetadataURI : string;
  ipMetadataHash : string;
  nftMetadataURI : string;
  nftMetadataHash : string;
  allowDuplicates : bool
}.

(** Its answer, as far as the hook reads it. *)
Record MintResult : Type := mkMintResult {
  resultIpId : option string;
  resultTxHash : option string
}.

(** What [executeRegister] returns: the object of lines 183-190 or the one
    of lines 240-243. *)
Inductive RegisterResult : Type :=
  | Registered (ipId txHash : option string)
               (imageUrl ipMetadataUrl nftMetadataUrl : string)
  | Failed (error : string).

(** The [success] field of the returned object. *)
Definition succeeded (r : RegisterResult) : bool :=
  match r with Registered _ _ _ _ _ => true | Failed _ => false end.

(** ** The collaborators *)

(** The outcome of a call: the promise resolves (or the function returns),
    or it rejects (or the function throws). *)
Inductive Outcome (A : Type) : Type :=
  | Resolved (a : A)
  | Rejected (e : Thrown).
Arguments Resolved {A} a.
Arguments Rejected {A} e.

(** Everything the hook takes from outside: the values of the wagmi hooks,
    the constant of [@/lib/constants], and the imported functions. *)
Record Env : Type := mkEnv {
  SPG_COLLECTION_ADDRESS : string;
  address : option string;
  chainId : Z;
  switchChainAsync : Z -> Outcome unit;
  compressImage : File -> Outcome File;
  uploadFile : File -> Outcome Upload;
  uploadJSON : Json -> Outcome Upload;
  extractCid : option string -> Outcome string;
  toHttps : string -> Outcome string;
  toIpfsUri : string -> Outcome string;
  sha256HexOfFile : File -> Outcome string;
  keccakOfJson : Json -> Outcome string;
  getClient : Outcome unit;
  mintAndRegisterIp : MintRequest -> Outcome MintResult
}.

(** A call to a collaborator, with its argument. *)
Inductive Call : Type :=
  | CSwitchChain (id : Z)
  | CCompressImage (f : File)
  | CUploadFile (f : File)
  | CUploadJSON (j : Json)
  | CExtractCid (v : option string)
  | CToHttps (c : string)
  | CToIpfsUri (c : string)
  | CSha256HexOfFile (f : File)
  | CKeccakOfJson (j : Json)
  | CGetClient
  | CMintAndRegisterIp (r : MintRequest).

(** What a run leaves in its log: the calls it made, each with whether it
    resolved, and the values [setRegisterState] stored. *)
Inductive Event : Type :=
  | Called (c : Call) (resolved : bool)
  | SetState (s : RegisterState).

(** The state object and the log, most recent event first. *)
Record World : Type := mkWorld {
  state : RegisterState;
  log : list Event
}.

(** ** The monad of the embedding *)

(** How a statement completes. *)
Inductive Completion (A : Type) : Type :=
  | Normal (a : A)
  | Return (r : RegisterResult)
  | Throw (e : Thrown).
Arguments Normal {A} a.
Arguments Return {A} r.
Arguments Throw {A} e.

Definition M (A : Type) : Type := World -> Completion A * World.

Definition ret {A} (a : A) : M A := fun w => (Normal a, w).

Definition bind {A B} (m : M A) (k : A -> M B) : M B :=
  fun w =>
    match m w with
    | (Normal a, w') => k a w'
    | (Return r, w') => (Return r, w')
    | (Throw e, w') => (Throw e, w')
    end.

(** [throw e]. *)
Definition throw {A} (e : Thrown) : M A := fun w => (Throw e, w).

(** [return r]. *)
Definition return_ {A} (r : RegisterResult) : M A := fun w => (Return r, w).

(** [try { body } catch (e) { handler e }]: only a throw reaches the
    handler. *)
Definition tryCatch {A} (body : M A) (handler : Thrown -> M A) : M A :=
  fun w =>
    match body w with
    | (Throw e, w') => handler e w'
    | done => done
    end.

(** [setRegisterState(update)]: the update is applied to the latest state. *)
Definition setRegisterState (update : RegisterState -> RegisterState)
  : M unit :=
  fun w =>
    let s := update (state w) in
    (Normal tt, mkWorld s (SetState s :: log w)).

(** A (possibly awaited) call to a collaborator. *)
Definition call {A} (c : Call) (o : Outcome A) : M A :=
  fun w =>
    match o with
    | Resolved a => (Normal a, mkWorld (state w) (Called c true :: log w))
    | Rejected e => (Throw e, mkWorld (state w) (Called c false :: log w))
    end.

Declare Scope workflow_scope.
Delimit Scope workflow_scope with workflow.
Notation "x <- m ;; k" := (bind m (fun x => k))
  (at level 61, m at next level, right associativity) : workflow_scope.
Notation "m ;; k" := (bind m (fun _ => k))
  (at level 61, right associativity) : workflow_scope.
Open Scope workflow_scope.

(** ** The hook *)

(** [a || d] where [a] may be [undefined] and [d] is a string. *)
Definition orDefault (a : option string) (d : string) : string :=
  match a with
  | Some s => orElse s d
  | None => d
  end.

(** The constants of [executeRegister] that are still read once the
    metadata have been uploaded (lines 78-129). *)
Record Prepared : Type := mkPrepared {
  imageGateway : string;
  ipMetaCid : string;
  nftMetaCid : string;
  preparedIpMetadataURI : string;
  preparedIpMetadataHash : string;
  preparedNftMetadataURI : string;
  preparedNftMetadataHash : string
}.

(** The text of the TypeError raised when a property of [null] or
    [undefined] is read (V8's wording). *)
Definition nullishReadMessage (e : Thrown) : string :=
  "Cannot read properties of " ++ toString e ++ " (reading 'message')".

Section Hook.

Variable env : Env.

(** Lines 36-44. *)
Definition ensureAeneid : M unit :=
  if negb (chainId env =? 1315) then
    tryCatch
      (call (CSwitchChain 1315) (switchChainAsync env 1315))
      (fun _ => throw (newError "Failed to switch to Aeneid network"))
  else ret tt.

(** Lines 88-102. *)
Definition buildIpMetadata (intent : RegisterIntent) (compressedFile : File)
    (gateway hash : string) : IpMetadata :=
  {| ipTitle := orDefault (title intent) (fileName compressedFile);
     ipDescription := orDefault (prompt intent) "";
     image := gateway;
     imageHash := hash;
     mediaUrl := gateway;
     mediaHash := hash;
     mediaType := orElse (fileType compressedFile) "image/webp";
     creators :=
       match address env with
       | Some a => if truthy a then [mkCreator a a 100] else []
       | None => []
       end;
     aiMetadata :=
       match prompt intent with
       | Some p =>
           if truthy p then Some (mkAiMetadata p "user" "rule-based")
           else None
       | None => None
       end |}.

(** Lines 117-123. *)
Definition buildNftMetadata (ipMetadata : IpMetadata) (uri : string)
    (gateway : string) : NftMetadata :=
  {| nftName := "IP Ownership — " ++ ipTitle ipMetadata;
     nftDescription := "Ownership NFT for IP Asset";
     nftImage := gateway;
     nftIpMetadataURI := uri;
     attributes := [("ip_metadata_uri", uri)] |}.

(** Lines 57-135: from the network guard to the [minting] stage. *)
Definition stages (intent : RegisterIntent) (file : File) : M Prepared :=
  ensureAeneid ;;
  setRegisterState (fun _ => plainState Compressing 10) ;;
  compressedFile <- call (CCompressImage file) (compressImage env file) ;;
  setRegisterState (withStage UploadingImage 25) ;;
  imageUpload <- call (CUploadFile compressedFile)
                      (uploadFile env compressedFile) ;;
  let imageRef := orElseOpt (cid imageUpload) (url imageUpload) in
  imageCid <- call (CExtractCid imageRef) (extractCid env imageRef) ;;
  gateway <- call (CToHttps imageCid) (toHttps env imageCid) ;;
  hash <- call (CSha256HexOfFile compressedFile)
               (sha256HexOfFile env compressedFile) ;;
  setRegisterState (withStage CreatingMetadata 50) ;;
  let ipMetadata := buildIpMetadata intent compressedFile gateway hash in
  ipMetaUpload <- call (CUploadJSON (JIp ipMetadata))
                       (uploadJSON env (JIp ipMetadata)) ;;
  let ipRef := orElseOpt (cid ipMetaUpload) (url ipMetaUpload) in
  ipCid <- call (CExtractCid ipRef) (extractCid env ipRef) ;;
  ipURI <- call (CToIpfsUri ipCid) (toIpfsUri env ipCid) ;;
  ipHash <- call (CKeccakOfJson (JIp ipMetadata))
                 (keccakOfJson env (JIp ipMetadata)) ;;
  setRegisterState (withStage UploadingMetadata 60) ;;
  let nftMetadata := buildNftMetadata ipMetadata ipURI gateway in
  nftMetaUpload <- call (CUploadJSON (JNft nftMetadata))
                        (uploadJSON env (JNft nftMetadata)) ;;
  let nftRef := orElseOpt (cid nftMetaUpload) (url nftMetaUpload) in
  nftCid <- call (CExtractCid nftRef) (extractCid env nftRef) ;;
  nftURI <- call (CToIpfsUri nftCid) (toIpfsUri env nftCid) ;;
  nftHash <- call (CKeccakOfJson (JNft nftMetadata))
                  (keccakOfJson env (JNft nftMetadata)) ;;
  setRegisterState (withStage Minting 75) ;;
  ret (mkPrepared gateway ipCid nftCid ipURI ipHash nftURI nftHash).

(** The shape of a metadata hash that line 151 (and 154) lets through. *)
Definition validHash (h : string) : bool :=
  startsWith h "0x" && (jsLength h =? 66)%nat.

(** Lines 145-156. *)
Definition validateMetadata (p : Prepared) : M unit :=
  if negb (startsWith (preparedIpMetadataURI p) "ipfs://") then
    throw (newError "Invalid IP metadata URI format")
  else if negb (startsWith (preparedNftMetadataURI p) "ipfs://") then
    throw (newError "Invalid NFT metadata URI format")
  else if negb (validHash (preparedIpMetadataHash p)) then
    throw (newError "Invalid IP metadata hash format")
  else if negb (validHash (preparedNftMetadataHash p)) then
    throw (newError "Invalid NFT metadata hash format")
  else ret tt.

(** The argument of the remote call (lines 161-171). *)
Definition mintRequest (p : Prepared) : MintRequest :=
  {| spgNftContract := SPG_COLLECTION_ADDRESS env;
     recipient := address env;
     ipMetadataURI := preparedIpMetadataURI p;
     ipMetadataHash := preparedIpMetadataHash p;
     nftMetadataURI := preparedNftMetadataURI p;
     nftMetadataHash := preparedNftMetadataHash p;
     allowDuplicates := true |}.

(** The message of the error thrown at lines 202-210. *)
Definition revertMessage (original : string) : string :=
  "Contract execution failed. This could be due to:" ++ LF ++
  "• Invalid metadata format" ++ LF ++
  "• Insufficient gas" ++ LF ++
  "• Wrong SPG collection address" ++ LF ++
  "• Network issues" ++ LF ++ LF ++
  "Using SPG: " ++ SPG_COLLECTION_ADDRESS env ++ LF ++
  "Original error: " ++ original.

(** The handler of the inner [try] (lines 191-214).  Reading
    [contractError.message] for the log raises a TypeError when the caught
    value is [null] or [undefined]. *)
Definition contractErrorHandler {A} (contractError : Thrown) : M A :=
  match contractError with
  | TNull | TUndefined =>
      throw (TError "TypeError" (nullishReadMessage contractError))
  | TError _ message =>
      if includes message "execution reverted"
      then throw (newError (revertMessage message))
      else throw contractError
  | TString _ => throw contractError
  end.

(** [{ status: 'success', progress: 100, error: null, ipId, txHash }]
    (lines 175-181). *)
Definition successState (result : MintResult) : RegisterState :=
  mkState Success 100 TNull (resultIpId result) (resultTxHash result).

(** Lines 158-214: both the [try] block and its handler end in [return]
    or [throw], hence the empty type of normal completions. *)
Definition register (p : Prepared) : M Empty_set :=
  call CGetClient (getClient env) ;;
  tryCatch
    (result <- call (CMintAndRegisterIp (mintRequest p))
                    (mintAndRegisterIp env (mintRequest p)) ;;
     setRegisterState (fun _ => successState result) ;;
     ipMetadataUrl <- call (CToHttps (ipMetaCid p))
                           (toHttps env (ipMetaCid p)) ;;
     nftMetadataUrl <- call (CToHttps (nftMetaCid p))
                            (toHttps env (nftMetaCid p)) ;;
     return_ (Registered (resultIpId result) (resultTxHash result)
                         (imageGateway p) ipMetadataUrl nftMetadataUrl))
    contractErrorHandler.

(** Lines 216-231.  [result] is a [const] of the inner [try] block, so
    evaluating [result.ipId] here would raise a ReferenceError before
    [setRegisterState] is called. *)
Definition trailingBlock (p : Prepared) : M Empty_set :=
  throw (TError "ReferenceError" "result is not defined").

(** The handler of the outer [try] (lines 233-244). *)
Definition topLevelHandler {A} (e : Thrown) : M A :=
  setRegisterState (withError e) ;;
  return_ (Failed (describe e)).

(** The outer [try] block (lines 47-232), with the statements that
    follow the inner [try] as a parameter. *)
Definition tryBlockWith (tail : Prepared -> M Empty_set)
    (intent : RegisterIntent) (file : File) : M Empty_set :=
  p <- stages intent file ;;
  validateMetadata p ;;
  register p ;;
  tail p.

Definition executeRegisterWith (tail : Prepared -> M Empty_set)
    (intent : RegisterIntent) (file : File) : M Empty_set :=
  tryCatch (tryBlockWith tail intent file) topLevelHandler.

(** Lines 46-245. *)
Definition tryBlock := tryBlockWith trailingBlock.
Definition executeRegister := executeRegisterWith trailingBlock.

End Hook.

(** Lines 247-253. *)
Definition resetRegister : M unit :=
  setRegisterState (fun _ => plainState Idle 0).

(** ** Observing a run *)

(** A call of [executeRegister] when the state object holds [s]. *)
Definition run {A} (m : M A) (s : RegisterState) : Completion A * World :=
  m (mkWorld s []).

(** What the caller of the async function gets: the promise resolves with
    the returned object or rejects with the thrown value.  (The body never
    runs to its end: its type has no normal completion.) *)
Definition settled (c : Completion Empty_set) : Outcome RegisterResult :=
  match c with
  | Normal a => match a with end
  | Return r => Resolved r
  | Throw e => Rejected e
  end.

(** The events of a run, oldest first. *)
Definition trace {A} (r : Completion A * World) : list Event :=
  rev (log (snd r)).

(** The state object at the end of a run. *)
Definition finalState {A} (r : Completion A * World) : RegisterState :=
  state (snd r).

(** The stage tag of a state object. *)
Definition stage (s : RegisterState) : string := statusTag (status s).

(** The values [setRegisterState] stored, in order. *)
Fixpoint updates (l : list Event) : list RegisterState :=
  match l with
  | [] => []
  | SetState s :: rest => s :: updates rest
  | Called _ _ :: rest => updates rest
  end.

(** The calls made, in order. *)
Fixpoint calls (l : list Event) : list Call :=
  match l with
  | [] => []
  | Called c _ :: rest => c :: calls rest
  | SetState _ :: rest => calls rest
  end.

(** Every call of the log resolved. *)
Fixpoint allResolved (l : list Event) : bool :=
  match l with
  | [] => true
  | Called _ ok :: rest => ok && allResolved rest
  | SetState _ :: rest => allResolved rest
  end.

Definition isMint (c : Call) : bool :=
  match c with CMintAndRegisterIp _ => true | _ => false end.

(** The remote registration service was invoked. *)
Definition mintInvoked (l : list Event) : bool := existsb isMint (calls l).


(** The state object as the log tells it: the value stored last, or [s0]
    when nothing was stored ([l] has the most recent event first). *)
Fixpoint latest (s0 : RegisterState) (l : list Event) : RegisterState :=
  match l with
  | [] => s0
  | SetState s :: _ => s
  | Called _ _ :: rest => latest s0 rest
  end.

(** The states that calls of [executeRegister] and [resetRegister], one
    after the other, lead to from the initial state. *)
Inductive reachable : RegisterState -> Prop :=
  | reachable_initial : reachable initialState
  | reachable_reset (s : RegisterState) :
      reachable s -> reachable (finalState (run resetRegister s))
  | reachable_execute (s : RegisterState) (env : Env)
      (intent : RegisterIntent) (file : File) :
      reachable s ->
      reachable (finalState (run (executeRegister env intent file) s)).

(** ** Vocabulary of the properties *)

(** The guard lets the run through: the chain is Aeneid already, or the
    wallet switches to it. *)
Definition networkReady (env : Env) : bool :=
  (chainId env =? 1315)
  || match switchChainAsync env 1315 with
     | Resolved _ => true
     | Rejected _ => false
     end.

(** The events the network guard leaves when it lets the run through. *)
Definition switchLog (env : Env) : list Event :=
  if negb (chainId env =? 1315) then [Called (CSwitchChain 1315) true]
  else [].

(** The values the collaborators hand back on the way to the [minting]
    stage. *)
Record Intermediate : Type := mkIntermediate {
  compressedFile : File;
  imageUpload : Upload;
  imageCid : string;
  gatewayUrl : string;
  fileHash : string;
  ipUpload : Upload;
  ipCid : string;
  ipURI : string;
  ipHash : string;
  nftUpload : Upload;
  nftCid : string;
  nftURI : string;
  nftHash : string
}.

(** [upload.cid || upload.url] (lines 77, 106, 127). *)
Definition refOf (u : Upload) : option string := orElseOpt (cid u) (url u).

Definition ipMetadataOf (env : Env) (intent : RegisterIntent)
    (v : Intermediate) : IpMetadata :=
  buildIpMetadata env intent (compressedFile v) (gatewayUrl v) (fileHash v).

Definition nftMetadataOf (env : Env) (intent : RegisterIntent)
    (v : Intermediate) : NftMetadata :=
  buildNftMetadata (ipMetadataOf env intent v) (ipURI v) (gatewayUrl v).

(** Every call of lines 67-129 resolves, with the values of [v]. *)
Definition stagesResolve (env : Env) (intent : RegisterIntent) (file : File)
    (v : Intermediate) : Prop :=
  compressImage env file = Resolved (compressedFile v)
  /\ uploadFile env (compressedFile v) = Resolved (imageUpload v)
  /\ extractCid env (refOf (imageUpload v)) = Resolved (imageCid v)
  /\ toHttps env (imageCid v) = Resolved (gatewayUrl v)
  /\ sha256HexOfFile env (compressedFile v) = Resolved (fileHash v)
  /\ uploadJSON env (JIp (ipMetadataOf env intent v)) = Resolved (ipUpload v)
  /\ extractCid env (refOf (ipUpload v)) = Resolved (ipCid v)
  /\ toIpfsUri env (ipCid v) = Resolved (ipURI v)
  /\ keccakOfJson env (JIp (ipMetadataOf env intent v)) = Resolved (ipHash v)
  /\ uploadJSON env (JNft (nftMetadataOf env intent v))
     = Resolved (nftUpload v)
  /\ extractCid env (refOf (nftUpload v)) = Resolved (nftCid v)
  /\ toIpfsUri env (nftCid v) = Resolved (nftURI v)
  /\ keccakOfJson env (JNft (nftMetadataOf env intent v))
     = Resolved (nftHash v).

(** The constants of the run that are read after line 135. *)
Definition preparedOf (v : Intermediate) : Prepared :=
  mkPrepared (gatewayUrl v) (ipCid v) (nftCid v)
             (ipURI v) (ipHash v) (nftURI v) (nftHash v).

(** What lines 60-135 add to the log, most recent first. *)
Definition stagesLog (env : Env) (intent : RegisterIntent) (file : File)
    (v : Intermediate) : list Event :=
  [ SetState (plainState Minting 75);
    Called (CKeccakOfJson (JNft (nftMetadataOf env intent v))) true;
    Called (CToIpfsUri (nftCid v)) true;
    Called (CExtractCid (refOf (nftUpload v))) true;
    Called (CUploadJSON (JNft (nftMetadataOf env intent v))) true;
    SetState (plainState UploadingMetadata 60);
    Called (CKeccakOfJson (JIp (ipMetadataOf env intent v))) true;
    Called (CToIpfsUri (ipCid v)) true;
    Called (CExtractCid (refOf (ipUpload v))) true;
    Called (CUploadJSON (JIp (ipMetadataOf env intent v))) true;
    SetState (plainState CreatingMetadata 50);
    Called (CSha256HexOfFile (compressedFile v)) true;
    Called (CToHttps (imageCid v)) true;
    Called (CExtractCid (refOf (imageUpload v))) true;
    Called (CUploadFile (compressedFile v)) true;
    SetState (plainState UploadingImage 25);
    Called (CCompressImage file) true;
    SetState (plainState Compressing 10) ].

(** The four checks of lines 145-156 pass. *)
Definition validMetadata (p : Prepared) : bool :=
  startsWith (preparedIpMetadataURI p) "ipfs://"
  && startsWith (preparedNftMetadataURI p) "ipfs://"
  && validHash (preparedIpMetadataHash p)
  && validHash (preparedNftMetadataHash p).

(** A metadata value has the wrong shape, in the words of the checks. *)
Definition malformed (p : Prepared) : Prop :=
  startsWith (preparedIpMetadataURI p) "ipfs://" = false
  \/ startsWith (preparedNftMetadataURI p) "ipfs://" = false
  \/ startsWith (preparedIpMetadataHash p) "0x" = false
  \/ jsLength (preparedIpMetadataHash p) <> 66%nat
  \/ startsWith (preparedNftMetadataHash p) "0x" = false
  \/ jsLength (preparedNftMetadataHash p) <> 66%nat.

(** The messages of the four errors of lines 145-156. *)
Definition invalidMetadataFormat : list string :=
  [ "Invalid IP metadata URI format";
    "Invalid NFT metadata URI format";
    "Invalid IP metadata hash format";
    "Invalid NFT metadata hash format" ].

(** The message of the error of line 41. *)
Definition networkSwitchError : string := "Failed to switch to Aeneid network".

(** The value is [null] or [undefined]. *)
Definition nullish (e : Thrown) : bool :=
  match e with
  | TNull | TUndefined => true
  | _ => false
  end.

(** The test of line 201, [contractError.message?.includes('execution
    reverted')], on a value that is not [null] or [undefined]. *)
Definition reverted (e : Thrown) : bool :=
  match messageOf e with
  | Some message => includes message "execution reverted"
  | None => false
  end.

(** [getClient], the remote call and the two gateway URLs of the returned
    object all resolve. *)
Definition registrationResolves (env : Env) (v : Intermediate)
    (result : MintResult) (ipUrl nftUrl : string) : Prop :=
  getClient env = Resolved tt
  /\ mintAndRegisterIp env (mintRequest env (preparedOf v)) = Resolved result
  /\ toHttps env (ipCid v) = Resolved ipUrl
  /\ toHttps env (nftCid v) = Resolved nftUrl.

(** What lines 158-190 add to the log on success, most recent first. *)
Definition registrationLog (env : Env) (v : Intermediate)
    (result : MintResult) : list Event :=
  [ Called (CToHttps (nftCid v)) true;
    Called (CToHttps (ipCid v)) true;
    SetState (successState result);
    Called (CMintAndRegisterIp (mintRequest env (preparedOf v))) true;
    Called CGetClient true ].

(** The state object agrees with the log of a run that started in [s0]. *)
Definition consistent (s0 : RegisterState) (w : World) : Prop :=
  state w = latest s0 (log w).

(** [m] keeps the property [P] of the state object and the log. *)
Definition preserves {A} (P : World -> Prop) (m : M A) : Prop :=
  forall w, P w -> P (snd (m w)).

(** [m] never completes by [return]. *)
Definition noReturn {A} (m : M A) : Prop :=
  forall w r w', m w <> (Return r, w').

(** The state objects that line 175 stores. *)
Definition isSuccessState (s : RegisterState) : Prop :=
  exists result, s = successState result.

(** The completion is a [throw]. *)
Definition isThrow {A} (c : Completion A) : bool :=
  match c with Throw _ => true | _ => false end.

(** [m] always completes by [throw]. *)
Definition alwaysThrows {A} (m : M A) : Prop :=
  forall w, isThrow (fst (m w)) = true.

(** When [m] completes without a [throw], no call it made was rejected. *)
Definition resolvedUnlessThrown {A} (m : M A) : Prop :=
  forall w,
    allResolved (log w) = true ->
    isThrow (fst (m w)) = false ->
    allResolved (log (snd (m w))) = true.

(** ** Mocked environments *)

Module Mock.

Definition spg : string := "0xc32A8a0FF3beDDDa58393d022aF433e78739FAbc".
Definition account : string := "0x1111111111111111111111111111111111111111".
Definition hash32 : string :=
  "0x00112233445566778899aabbccddeeff00112233445566778899aabbccddeeff".
Definition gateway : string := "https://ipfs.io/ipfs/".
Definition minted : MintResult := mkMintResult (Some "0xABC") (Some "0xDEF").

Definition cidOf (j : Json) : string :=
  match j with JIp _ => "bafyIp" | JNft _ => "bafyNft" end.

(** An environment in which the wallet is on chain [chain] and answers a
    switch request with [switch], the compressor answers with [compress],
    [toIpfsUri] puts [scheme] before the identifier, [keccakOfJson] yields
    [keccak] and the remote call answers with [mint]. *)
Definition make (chain : Z) (switch : Outcome unit)
    (compress : File -> Outcome File) (scheme keccak : string)
    (mint : Outcome MintResult) : Env :=
  {| SPG_COLLECTION_ADDRESS := spg;
     address := Some account;
     chainId := chain;
     switchChainAsync := fun _ => switch;
     compressImage := compress;
     uploadFile := fun _ => Resolved (mkUpload (Some "bafyImage") None);
     uploadJSON := fun j => Resolved (mkUpload (Some (cidOf j)) None);
     extractCid := fun r => Resolved (orDefault r "");
     toHttps := fun c => Resolved (gateway ++ c);
     toIpfsUri := fun c => Resolved (scheme ++ c);
     sha256HexOfFile := fun _ => Resolved "ab12";
     keccakOfJson := fun _ => Resolved keccak;
     getClient := Resolved tt;
     mintAndRegisterIp := fun _ => mint |}.

Definition intent : RegisterIntent := mkIntent (Some "Cat") (Some "").
Definition file : File := mkFile "cat.png" "image/png" [].

(** What the stages yield in [make _ _ Resolved scheme keccak _]. *)
Definition values (scheme keccak : string) : Intermediate :=
  {| compressedFile := file;
     imageUpload := mkUpload (Some "bafyImage") None;
     imageCid := "bafyImage";
     gatewayUrl := gateway ++ "bafyImage";
     fileHash := "ab12";
     ipUpload := mkUpload (Some "bafyIp") None;
     ipCid := "bafyIp";
     ipURI := scheme ++ "bafyIp";
     ipHash := keccak;
     nftUpload := mkUpload (Some "bafyNft") None;
     nftCid := "bafyNft";
     nftURI := scheme ++ "bafyNft";
     nftHash := keccak |}.

(** Every collaborator answers as its contract says. *)
Definition env : Env :=
  make 1315 (Resolved tt) Resolved "ipfs://" hash32 (Resolved minted).

(** [keccakOfJson] resolves, with a hash that is too short. *)
Definition shortHash : Env :=
  make 1315 (Resolved tt) Resolved "ipfs://" "0x12" (Resolved minted).

(** [toIpfsUri] resolves, with a URI of another scheme. *)
Definition httpScheme : Env :=
  make 1315 (Resolved tt) Resolved "https://" hash32 (Resolved minted).

(** The compressor rejects with [e]. *)
Definition compressionFails (e : Thrown) : Env :=
  make 1315 (Resolved tt) (fun _ => Rejected e) "ipfs://" hash32
       (Resolved minted).

(** The remote call rejects with [e]. *)
Definition mintFails (e : Thrown) : Env :=
  make 1315 (Resolved tt) Resolved "ipfs://" hash32 (Rejected e).

(** The wallet is on another chain and refuses to switch. *)
Definition switchRefused : Env :=
  make 1 (Rejected (newError "User rejected the request")) Resolved
       "ipfs://" hash32 (Resolved minted).

(** The wallet is on another chain and switches. *)
Definition switchAccepted : Env :=
  make 1 (Resolved tt) Resolved "ipfs://" hash32 (Resolved minted).

(** The state after a registration in [env], and the state after a second
    call, in [switchRefused], that follows it. *)
Definition afterSuccess : RegisterState :=
  finalState (run (executeRegister env intent file) initialState).
Definition afterRefusedSwitch : RegisterState :=
  finalState (run (executeRegister switchRefused intent file) afterSuccess).

End Mock.

(** ** Vocabulary of the properties of every run *)

(** The postcondition [Q] holds of what [m] does from [w]. *)
Definition wp {A} (m : M A) (Q : Completion A * World -> Prop) (w : World)
  : Prop :=
  Q (m w).

(** What the handler of the inner [try] throws for the value it caught
    (lines 191-214). *)
Definition rethrown (env : Env) (e : Thrown) : Thrown :=
  match e with
  | TNull | TUndefined => TError "TypeError" (nullishReadMessage e)
  | TError _ message =>
      if includes message "execution reverted"
      then newError (revertMessage env message)
      else e
  | TString _ => e
  end.

(** The stages in the order of lines 60-181, each with its progress. *)
Definition pipeline : list (Status * Z) :=
  [ (Compressing, 10); (UploadingImage, 25); (CreatingMetadata, 50);
    (UploadingMetadata, 60); (Minting, 75); (Success, 100) ].

Definition stagePair (s : RegisterState) : Status * Z :=
  (status s, progress s).

(** The progress after the first [n] stages, [p0] when [n] is 0. *)
Definition progressAfter (p0 : Z) (n : nat) : Z :=
  last (map snd (firstn n pipeline)) p0.

Definition isSwitch (c : Call) : bool :=
  match c with CSwitchChain _ => true | _ => false end.

(** The arguments of the calls of [mintAndRegisterIp], in order. *)
Fixpoint mintRequests (l : list Event) : list MintRequest :=
  match l with
  | [] => []
  | Called (CMintAndRegisterIp r) _ :: rest => r :: mintRequests rest
  | _ :: rest => mintRequests rest
  end.

(** The request names the configured collection and the connected account,
    allows duplicates, and its metadata have the shape lines 145-156 ask
    for. *)
Definition requestChecked (env : Env) (r : MintRequest) : Prop :=
  spgNftContract r = SPG_COLLECTION_ADDRESS env
  /\ recipient r = address env
  /\ allowDuplicates r = true
  /\ startsWith (ipMetadataURI r) "ipfs://" = true
  /\ startsWith (nftMetadataURI r) "ipfs://" = true
  /\ validHash (ipMetadataHash r) = true
  /\ validHash (nftMetadataHash r) = true.

(** The objects given to [uploadJSON], in order. *)
Fixpoint uploadedJson (l : list Event) : list Json :=
  match l with
  | [] => []
  | Called (CUploadJSON j) _ :: rest => j :: uploadedJson rest
  | _ :: rest => uploadedJson rest
  end.

(** The objects given to [keccakOfJson], in order. *)
Fixpoint hashedJson (l : list Event) : list Json :=
  match l with
  | [] => []
  | Called (CKeccakOfJson j) _ :: rest => j :: hashedJson rest
  | _ :: rest => hashedJson rest
  end.

(** The files given to [uploadFile] and to [sha256HexOfFile], in order. *)
Fixpoint handledFiles (l : list Event) : list File :=
  match l with
  | [] => []
  | Called (CUploadFile f) _ :: rest => f :: handledFiles rest
  | Called (CSha256HexOfFile f) _ :: rest => f :: handledFiles rest
  | _ :: rest => handledFiles rest
  end.

(** The name of the function a call goes to. *)
Definition callee (c : Call) : string :=
  match c with
  | CSwitchChain _ => "switchChainAsync"
  | CCompressImage _ => "compressImage"
  | CUploadFile _ => "uploadFile"
  | CUploadJSON _ => "uploadJSON"
  | CExtractCid _ => "extractCid"
  | CToHttps _ => "toHttps"
  | CToIpfsUri _ => "toIpfsUri"
  | CSha256HexOfFile _ => "sha256HexOfFile"
  | CKeccakOfJson _ => "keccakOfJson"
  | CGetClient => "getClient"
  | CMintAndRegisterIp _ => "mintAndRegisterIp"
  end.

(** The calls of lines 67-189 in the order in which they stand. *)
Definition callOrder : list string :=
  [ "compressImage"; "uploadFile"; "extractCid"; "toHttps";
    "sha256HexOfFile";
    "uploadJSON"; "extractCid"; "toIpfsUri"; "keccakOfJson";
    "uploadJSON"; "extractCid"; "toIpfsUri"; "keccakOfJson";
    "getClient"; "mintAndRegisterIp"; "toHttps"; "toHttps" ].

(** The IP metadata [m] describe the image of the run: its media fields
    are the gateway URL of the uploaded image and the SHA-256 of the
    compressed file, and its title and media type fall back on the
    compressed file. *)
Definition describesImage (env : Env) (intent : RegisterIntent) (file : File)
    (m : IpMetadata) : Prop :=
  exists compressed upload identifier,
    compressImage env file = Resolved compressed
    /\ uploadFile env compressed = Resolved upload
    /\ extractCid env (orElseOpt (cid upload) (url upload))
       = Resolved identifier
    /\ toHttps env identifier = Resolved (image m)
    /\ sha256HexOfFile env compressed = Resolved (imageHash m)
    /\ mediaUrl m = image m
    /\ mediaHash m = imageHash m
    /\ ipTitle m = orDefault (title intent) (fileName compressed)
    /\ mediaType m = orElse (fileType compressed) "image/webp".

(** The NFT metadata [n] belong to the IP metadata [m]. *)
Definition belongsTo (n : NftMetadata) (m : IpMetadata) : Prop :=
  nftImage n = image m
  /\ nftName n = "IP Ownership — " ++ ipTitle m
  /\ attributes n = [("ip_metadata_uri", nftIpMetadataURI n)].

(** Environments in which a call after the validation gate fails. *)
Module Late.

(** [getClient] rejects with [e]. *)
Definition clientFails (e : Thrown) : Env :=
  {| SPG_COLLECTION_ADDRESS := Mock.spg;
     address := address Mock.env;
     chainId := 1315;
     switchChainAsync := switchChainAsync Mock.env;
     compressImage := compressImage Mock.env;
     uploadFile := uploadFile Mock.env;
     uploadJSON := uploadJSON Mock.env;
     extractCid := extractCid Mock.env;
     toHttps := toHttps Mock.env;
     toIpfsUri := toIpfsUri Mock.env;
     sha256HexOfFile := sha256HexOfFile Mock.env;
     keccakOfJson := keccakOfJson Mock.env;
     getClient := Rejected e;
     mintAndRegisterIp := mintAndRegisterIp Mock.env |}.

(** [toHttps] resolves for the image and rejects with [e] for the
    metadata. *)
Definition gatewayFails (e : Thrown) : Env :=
  {| SPG_COLLECTION_ADDRESS := Mock.spg;
     address := address Mock.env;
     chainId := 1315;
     switchChainAsync := switchChainAsync Mock.env;
     compressImage := compressImage Mock.env;
     uploadFile := uploadFile Mock.env;
     uploadJSON := uploadJSON Mock.env;
     extractCid := extractCid Mock.env;
     toHttps := fun c =>
       if String.eqb c "bafyImage" then Resolved (Mock.gateway ++ c)
       else Rejected e;
     toIpfsUri := toIpfsUri Mock.env;
     sha256HexOfFile := sha256HexOfFile Mock.env;
     keccakOfJson := keccakOfJson Mock.env;
     getClient := Resolved tt;
     mintAndRegisterIp := mintAndRegisterIp Mock.env |}.

End Late.

(** * Properties *)

(** ** Facts about strings *)

Lemma prefix_app (p s t : string) :
  String.prefix p s = true -> String.prefix p (s ++ t) = true.
Proof.
  revert s; induction p as [|c p IH]; intros s H.
  - destruct (s ++ t); reflexivity.
  - destruct s as [|d s]; simpl in *; [discriminate|].
    destruct (ascii_dec c d); [auto | discriminate].
Qed.

Lemma prefix_refl (s : string) : String.prefix s s = true.
Proof.
  induction s as [|c s IH]; simpl; [reflexivity|].
  destruct (ascii_dec c c); [assumption | contradiction].
Qed.

Lemma includes_cons (c : ascii) (s n : string) :
  includes (String c s) n
  = if String.prefix n (String c s) then true else includes s n.
Proof. reflexivity. Qed.

Lemma includes_app_l (s t n : string) :
  includes s n = true -> includes (s ++ t) n = true.
Proof.
  induction s as [|c s IH]; intros H.
  - destruct n; [|discriminate]. destruct t; reflexivity.
  - change (String c s ++ t) with (String c (s ++ t)).
    rewrite includes_cons in *.
    destruct (String.prefix n (String c s)) eqn:E.
    + apply (prefix_app _ _ t) in E.
      change (String c s ++ t) with (String c (s ++ t)) in E.
      rewrite E. reflexivity.
    + destruct (String.prefix n (String c (s ++ t))); auto.
Qed.

Lemma includes_app_r (p s n : string) :
  includes s n = true -> includes (p ++ s) n = true.
Proof.
  induction p as [|c p IH]; intros H; [assumption|].
  change (String c p ++ s) with (String c (p ++ s)).
  rewrite includes_cons.
  destruct (String.prefix n (String c (p ++ s))); auto.
Qed.

Lemma includes_refl (s : string) : includes s s = true.
Proof.
  destruct s as [|c s]; [reflexivity|].
  rewrite includes_cons, prefix_refl. reflexivity.
Qed.

Lemma truthy_describe (name message : string) :
  truthy message = true -> describe (TError name message) = message.
Proof.
  unfold describe; simpl. intros ->. reflexivity.
Qed.

(** The message of line 202 names the collection address and quotes the
    message it wraps. *)
Lemma revertMessage_includes (env : Env) (original : string) :
  includes (revertMessage env original) (SPG_COLLECTION_ADDRESS env) = true
  /\ includes (revertMessage env original) original = true.
Proof.
  unfold revertMessage. split.
  - do 12 apply includes_app_r. apply includes_app_l, includes_refl.
  - do 15 apply includes_app_r. apply includes_refl.
Qed.

Lemma revertMessage_truthy (env : Env) (original : string) :
  truthy (revertMessage env original) = true.
Proof. reflexivity. Qed.

(** ** Stepping through a computation *)

Lemma step_call {A B} (c : Call) (o : Outcome A) (a : A) (k : A -> M B)
    (s : RegisterState) (l : list Event) (R : Completion B * World) :
  o = Resolved a ->
  k a (mkWorld s (Called c true :: l)) = R ->
  bind (call c o) k (mkWorld s l) = R.
Proof. intros -> <-. reflexivity. Qed.

Lemma step_setRegisterState {B} (f : RegisterState -> RegisterState)
    (k : unit -> M B) (s : RegisterState) (l : list Event)
    (R : Completion B * World) :
  k tt (mkWorld (f s) (SetState (f s) :: l)) = R ->
  bind (setRegisterState f) k (mkWorld s l) = R.
Proof. intros <-. reflexivity. Qed.

(** One statement of a run in which the calls resolve. *)
Ltac step :=
  first [ apply step_setRegisterState
        | eapply step_call; [ eassumption | ] ].

Lemma step_normal {A B} (m : M A) (a : A) (k : A -> M B) (w w' : World)
    (R : Completion B * World) :
  m w = (Normal a, w') -> k a w' = R -> bind m k w = R.
Proof. unfold bind. intros -> <-. reflexivity. Qed.

Lemma step_throw {A B} (m : M A) (e : Thrown) (k : A -> M B) (w w' : World) :
  m w = (Throw e, w') -> bind m k w = (Throw e, w').
Proof. unfold bind. intros ->. reflexivity. Qed.

Lemma bind_ext {A B} (m : M A) (k1 k2 : A -> M B) (w : World) :
  (forall a w', k1 a w' = k2 a w') -> bind m k1 w = bind m k2 w.
Proof.
  intros H. unfold bind. destruct (m w) as [[a|r|e] w']; auto.
Qed.

(** A computation without normal completion never reaches what follows
    it. *)
Lemma bind_empty {B} (m : M Empty_set) (k1 k2 : Empty_set -> M B)
    (w : World) :
  bind m k1 w = bind m k2 w.
Proof.
  unfold bind. destruct (m w) as [[a|r|e] w']; [destruct a | | ]; reflexivity.
Qed.

Lemma tryCatch_throw {A} (body : M A) (h : Thrown -> M A) (w w' : World)
    (e : Thrown) :
  body w = (Throw e, w') -> tryCatch body h w = h e w'.
Proof. unfold tryCatch. intros ->. reflexivity. Qed.

Lemma tryCatch_return {A} (body : M A) (h : Thrown -> M A) (w w' : World)
    (r : RegisterResult) :
  body w = (Return r, w') -> tryCatch body h w = (Return r, w').
Proof. unfold tryCatch. intros ->. reflexivity. Qed.

(** ** The network guard *)

Lemma ensureAeneid_ready (env : Env) (w : World) :
  networkReady env = true ->
  ensureAeneid env w = (Normal tt, mkWorld (state w) (switchLog env ++ log w)).
Proof.
  unfold networkReady, ensureAeneid, switchLog.
  destruct (chainId env =? 1315); simpl.
  - intros _. destruct w; reflexivity.
  - unfold tryCatch, call.
    destruct (switchChainAsync env 1315) as [[]|e]; [reflexivity | discriminate].
Qed.

Lemma ensureAeneid_refused (env : Env) (e : Thrown) (w : World) :
  chainId env <> 1315 ->
  switchChainAsync env 1315 = Rejected e ->
  ensureAeneid env w
  = (Throw (newError networkSwitchError),
     mkWorld (state w) (Called (CSwitchChain 1315) false :: log w)).
Proof.
  intros Hc Hs. unfold ensureAeneid.
  apply Z.eqb_neq in Hc. rewrite Hc. simpl.
  unfold tryCatch, call. rewrite Hs. reflexivity.
Qed.

(** ** The top-level handler *)

Lemma topLevelHandler_run {A} (e : Thrown) (w : World) :
  @topLevelHandler A e w
  = (Return (Failed (describe e)),
     mkWorld (withError e (state w))
             (SetState (withError e (state w)) :: log w)).
Proof. reflexivity. Qed.

(** A throw of the outer [try] block ends in the handler's [return]. *)
Lemma execute_on_throw (env : Env) (tail : Prepared -> M Empty_set)
    (intent : RegisterIntent) (file : File) (w w' : World) (e : Thrown) :
  tryBlockWith env tail intent file w = (Throw e, w') ->
  executeRegisterWith env tail intent file w
  = (Return (Failed (describe e)),
     mkWorld (withError e (state w'))
             (SetState (withError e (state w')) :: log w')).
Proof.
  intros H. unfold executeRegisterWith.
  rewrite (tryCatch_throw _ _ _ _ _ H). apply topLevelHandler_run.
Qed.

Lemma execute_on_return (env : Env) (tail : Prepared -> M Empty_set)
    (intent : RegisterIntent) (file : File) (w w' : World)
    (r : RegisterResult) :
  tryBlockWith env tail intent file w = (Return r, w') ->
  executeRegisterWith env tail intent file w = (Return r, w').
Proof.
  intros H. unfold executeRegisterWith.
  apply (tryCatch_return _ _ _ _ _ H).
Qed.

(** ** The validation gate *)

Lemma validateMetadata_passes (p : Prepared) (w : World) :
  validMetadata p = true -> validateMetadata p w = (Normal tt, w).
Proof.
  unfold validMetadata, validateMetadata. intros H.
  apply andb_prop in H as [H H4]. apply andb_prop in H as [H H3].
  apply andb_prop in H as [H1 H2].
  rewrite H1, H2, H3, H4. reflexivity.
Qed.

Lemma validateMetadata_rejects (p : Prepared) (w : World) :
  validMetadata p = false ->
  exists msg, In msg invalidMetadataFormat
              /\ validateMetadata p w = (Throw (newError msg), w).
Proof.
  unfold validMetadata, validateMetadata, invalidMetadataFormat. intros H.
  destruct (startsWith (preparedIpMetadataURI p) "ipfs://");
    [| eexists; split; [| reflexivity]; simpl; auto ].
  destruct (startsWith (preparedNftMetadataURI p) "ipfs://");
    [| eexists; split; [| reflexivity]; simpl; auto ].
  destruct (validHash (preparedIpMetadataHash p));
    [| eexists; split; [| reflexivity]; simpl; auto ].
  destruct (validHash (preparedNftMetadataHash p));
    [ discriminate | eexists; split; [| reflexivity]; simpl; auto 6 ].
Qed.

Lemma malformed_invalid (p : Prepared) :
  malformed p -> validMetadata p = false.
Proof.
  unfold malformed, validMetadata, validHash.
  intros [H | [H | [H | [H | [H | H]]]]];
    try apply Nat.eqb_neq in H; rewrite H;
    repeat (rewrite ?andb_false_r, ?andb_false_l; simpl);
    repeat match goal with
           | |- context [startsWith ?a ?b] => destruct (startsWith a b)
           | |- context [Nat.eqb ?a ?b] => destruct (Nat.eqb a b)
           end; reflexivity.
Qed.

(** ** Runs in which the stages resolve *)

Section Resolving.

Variables (env : Env) (intent : RegisterIntent) (file : File).
Variable v : Intermediate.
Variable tail : Prepared -> M Empty_set.

Hypothesis Hnet : networkReady env = true.
Hypothesis Hstages : stagesResolve env intent file v.

Lemma stages_resolved (w : World) :
  stages env intent file w
  = (Normal (preparedOf v),
     mkWorld (plainState Minting 75)
             (stagesLog env intent file v ++ switchLog env ++ log w)).
Proof.
  destruct Hstages as
    (H1 & H2 & H3 & H4 & H5 & H6 & H7 & H8 & H9 & H10 & H11 & H12 & H13).
  unfold stages.
  apply (step_normal _ _ _ _ _ _ (ensureAeneid_ready env w Hnet)).
  repeat step.
  reflexivity.
Qed.

Lemma tryBlock_invalid (w : World) :
  validMetadata (preparedOf v) = false ->
  exists msg,
    In msg invalidMetadataFormat
    /\ tryBlockWith env tail intent file w
       = (Throw (newError msg),
          mkWorld (plainState Minting 75)
                  (stagesLog env intent file v ++ switchLog env ++ log w)).
Proof.
  intros Hbad. unfold tryBlockWith.
  unfold bind at 1. rewrite stages_resolved.
  destruct (validateMetadata_rejects _
              (mkWorld (plainState Minting 75)
                 (stagesLog env intent file v ++ switchLog env ++ log w))
              Hbad) as (msg & Hin & Hthrow).
  exists msg. split; [assumption|].
  unfold bind. rewrite Hthrow. reflexivity.
Qed.

Hypothesis Hvalid : validMetadata (preparedOf v) = true.

Lemma tryBlock_registered (result : MintResult) (ipUrl nftUrl : string)
    (w : World) :
  registrationResolves env v result ipUrl nftUrl ->
  tryBlockWith env tail intent file w
  = (Return (Registered (resultIpId result) (resultTxHash result)
                        (gatewayUrl v) ipUrl nftUrl),
     mkWorld (successState result)
             (registrationLog env v result
              ++ stagesLog env intent file v ++ switchLog env ++ log w)).
Proof.
  intros (Hc & Hm & Hi & Hn). unfold tryBlockWith.
  unfold bind at 1. rewrite stages_resolved.
  unfold bind at 1. rewrite (validateMetadata_passes _ _ Hvalid).
  unfold register, bind, tryCatch, call, setRegisterState.
  rewrite Hc, Hm. simpl. rewrite Hi, Hn. reflexivity.
Qed.

Lemma tryBlock_contract_error (e : Thrown) (w : World) :
  getClient env = Resolved tt ->
  mintAndRegisterIp env (mintRequest env (preparedOf v)) = Rejected e ->
  tryBlockWith env tail intent file w
  = @contractErrorHandler env Empty_set e
      (mkWorld (plainState Minting 75)
         (Called (CMintAndRegisterIp (mintRequest env (preparedOf v))) false
          :: Called CGetClient true
          :: stagesLog env intent file v ++ switchLog env ++ log w)).
Proof.
  intros Hc Hm. unfold tryBlockWith.
  unfold bind at 1. rewrite stages_resolved.
  unfold bind at 1. rewrite (validateMetadata_passes _ _ Hvalid).
  unfold register, bind, tryCatch, call, setRegisterState.
  rewrite Hc, Hm. simpl.
  destruct e as [n m| s | |]; simpl;
    try destruct (includes m "execution reverted"); reflexivity.
Qed.

End Resolving.

(** The stages of the mocked environments resolve. *)
Lemma mock_stagesResolve (chain : Z) (switch : Outcome unit)
    (scheme keccak : string) (mint : Outcome MintResult) :
  stagesResolve (Mock.make chain switch Resolved scheme keccak mint)
                Mock.intent Mock.file (Mock.values scheme keccak).
Proof. repeat split. Qed.

(** ** The successful run *)

(** C1, as the code has it: in every run of [executeRegister] in which
    every call to a collaborator resolves and the four metadata values pass
    the checks of lines 145-156, [progress] takes exactly the values 10, 25,
    50, 60, 75, 100 in that order, [status] goes through compressing,
    uploading-image, creating-metadata, uploading-metadata, minting and
    success in that order, and the final status is success. *)
Theorem progress_sequence_on_success (env : Env) (intent : RegisterIntent)
    (file : File) (v : Intermediate) (result : MintResult)
    (ipUrl nftUrl : string) (s0 : RegisterState) :
  networkReady env = true ->
  stagesResolve env intent file v ->
  validMetadata (preparedOf v) = true ->
  registrationResolves env v result ipUrl nftUrl ->
  let r := run (executeRegister env intent file) s0 in
  allResolved (trace r) = true
  /\ map progress (updates (trace r)) = [10; 25; 50; 60; 75; 100]
  /\ map stage (updates (trace r))
     = ["compressing"; "uploading-image"; "creating-metadata";
        "uploading-metadata"; "minting"; "success"]
  /\ status (finalState r) = Success.
Proof.
  intros Hnet Hst Hvalid Hreg r. subst r.
  unfold run, executeRegister.
  rewrite (execute_on_return _ _ _ _ _ _ _
             (tryBlock_registered env intent file v trailingBlock
                Hnet Hst Hvalid result ipUrl nftUrl _ Hreg)).
  unfold trace, finalState, switchLog.
  destruct (negb (chainId env =? 1315)); repeat split.
Qed.

Lemma progress_sequence_on_success_witness :
  let r := run (executeRegister Mock.env Mock.intent Mock.file) initialState in
  allResolved (trace r) = true
  /\ map progress (updates (trace r)) = [10; 25; 50; 60; 75; 100]
  /\ map stage (updates (trace r))
     = ["compressing"; "uploading-image"; "creating-metadata";
        "uploading-metadata"; "minting"; "success"]
  /\ status (finalState r) = Success.
Proof.
  apply (progress_sequence_on_success Mock.env Mock.intent Mock.file
           (Mock.values "ipfs://" Mock.hash32) Mock.minted
           (Mock.gateway ++ "bafyIp") (Mock.gateway ++ "bafyNft")).
  - reflexivity.
  - apply mock_stagesResolve.
  - reflexivity.
  - repeat split.
Defined.

(** C1 as stated fails: every call resolves, but [keccakOfJson] hands back
    a hash that line 151 refuses; [progress] stops at 75 and the run ends in
    the error state. *)
Lemma short_hash_stops_at_minting :
  let r :=
    run (executeRegister Mock.shortHash Mock.intent Mock.file) initialState in
  allResolved (trace r) = true
  /\ map progress (updates (trace r)) = [10; 25; 50; 60; 75; 75]
  /\ map stage (updates (trace r))
     = ["compressing"; "uploading-image"; "creating-metadata";
        "uploading-metadata"; "minting"; "error"]
  /\ status (finalState r) = Error
  /\ settled (fst r) = Resolved (Failed "Invalid IP metadata hash format").
Proof. repeat split. Qed.

(** C7: in every fully successful run, [executeRegister] stores
    [{ status: 'success', progress: 100, error: null, ipId, txHash }] with
    the identifiers the remote call returned, and returns
    [{ success: true, ipId, txHash, imageUrl, ipMetadataUrl, nftMetadataUrl }]
    whose three URLs are [toHttps] of the image CID, of the IP metadata CID
    and of the NFT metadata CID. *)
Theorem success_result (env : Env) (intent : RegisterIntent)
    (file : File) (v : Intermediate) (result : MintResult)
    (ipUrl nftUrl : string) (s0 : RegisterState) :
  networkReady env = true ->
  stagesResolve env intent file v ->
  validMetadata (preparedOf v) = true ->
  registrationResolves env v result ipUrl nftUrl ->
  let r := run (executeRegister env intent file) s0 in
  settled (fst r)
  = Resolved (Registered (resultIpId result) (resultTxHash result)
                         (gatewayUrl v) ipUrl nftUrl)
  /\ finalState r
     = mkState Success 100 TNull (resultIpId result) (resultTxHash result)
  /\ toHttps env (imageCid v) = Resolved (gatewayUrl v)
  /\ toHttps env (ipCid v) = Resolved ipUrl
  /\ toHttps env (nftCid v) = Resolved nftUrl.
Proof.
  intros Hnet Hst Hvalid Hreg r. subst r.
  unfold run, executeRegister.
  rewrite (execute_on_return _ _ _ _ _ _ _
             (tryBlock_registered env intent file v trailingBlock
                Hnet Hst Hvalid result ipUrl nftUrl _ Hreg)).
  destruct Hst as (_ & _ & _ & H4 & _).
  destruct Hreg as (_ & _ & Hi & Hn).
  repeat split; assumption.
Qed.

Lemma success_result_witness :
  let r := run (executeRegister Mock.env Mock.intent Mock.file) initialState in
  settled (fst r)
  = Resolved (Registered (Some "0xABC") (Some "0xDEF")
                         "https://ipfs.io/ipfs/bafyImage"
                         "https://ipfs.io/ipfs/bafyIp"
                         "https://ipfs.io/ipfs/bafyNft")
  /\ finalState r = mkState Success 100 TNull (Some "0xABC") (Some "0xDEF")
  /\ toHttps Mock.env "bafyImage" = Resolved "https://ipfs.io/ipfs/bafyImage"
  /\ toHttps Mock.env "bafyIp" = Resolved "https://ipfs.io/ipfs/bafyIp"
  /\ toHttps Mock.env "bafyNft" = Resolved "https://ipfs.io/ipfs/bafyNft".
Proof.
  apply (success_result Mock.env Mock.intent Mock.file
           (Mock.values "ipfs://" Mock.hash32) Mock.minted
           (Mock.gateway ++ "bafyIp") (Mock.gateway ++ "bafyNft")).
  - reflexivity.
  - apply mock_stagesResolve.
  - reflexivity.
  - repeat split.
Defined.

(** ** The validation gate *)



(** ** Failures of the remote call *)




(** The two cases of C4 on concrete rejections. *)
Example reverted_rejection_is_wrapped :
  settled (fst (run (executeRegister
                       (Mock.mintFails (newError "execution reverted: 0x"))
                       Mock.intent Mock.file) initialState))
  = Resolved (Failed (revertMessage Mock.env "execution reverted: 0x")).
Proof. reflexivity. Qed.

Example other_rejection_is_kept :
  let r := run (executeRegister (Mock.mintFails (newError "nonce too low"))
                                Mock.intent Mock.file) initialState in
  settled (fst r) = Resolved (Failed "nonce too low")
  /\ finalState r = mkState Error 75 (newError "nonce too low") None None.
Proof. split; reflexivity. Qed.

(** ** The network guard *)

(** C6: when the chain is not 1315 and the wallet fails to switch,
    [executeRegister] fails with the network-switch error and goes no
    further: the switch request is the only call of the run, and the only
    state update is the one of the top-level handler. *)
Theorem refused_switch_stops_run (env : Env) (intent : RegisterIntent)
    (file : File) (e : Thrown) (s0 : RegisterState) :
  chainId env <> 1315 ->
  switchChainAsync env 1315 = Rejected e ->
  let r := run (executeRegister env intent file) s0 in
  settled (fst r) = Resolved (Failed networkSwitchError)
  /\ finalState r = withError (newError networkSwitchError) s0
  /\ trace r = [ Called (CSwitchChain 1315) false;
                 SetState (withError (newError networkSwitchError) s0) ].
Proof.
  intros Hc Hs r. subst r.
  assert (Hrun : tryBlock env intent file (mkWorld s0 [])
                 = (Throw (newError networkSwitchError),
                    mkWorld s0 [Called (CSwitchChain 1315) false])).
  { unfold tryBlock, tryBlockWith, stages.
    unfold bind. rewrite (ensureAeneid_refused env e _ Hc Hs). reflexivity. }
  unfold run, executeRegister.
  rewrite (execute_on_throw _ _ _ _ _ _ _ Hrun).
  repeat split.
Qed.

Lemma refused_switch_stops_run_witness :
  let r := run (executeRegister Mock.switchRefused Mock.intent Mock.file)
               initialState in
  settled (fst r) = Resolved (Failed networkSwitchError)
  /\ finalState r = withError (newError networkSwitchError) initialState
  /\ trace r = [ Called (CSwitchChain 1315) false;
                 SetState (withError (newError networkSwitchError)
                                     initialState) ].
Proof.
  apply (refused_switch_stops_run Mock.switchRefused Mock.intent Mock.file
           (newError "User rejected the request")).
  - simpl. lia.
  - reflexivity.
Defined.

(** ** Reset *)

(** C5: from any state, [resetRegister] leaves exactly
    [{ status: 'idle', progress: 0, error: null }], without [ipId] or
    [txHash], and a second call changes nothing. *)
Theorem reset_idempotent (s : RegisterState) :
  let once := finalState (run resetRegister s) in
  once = mkState Idle 0 TNull None None
  /\ finalState (run resetRegister once) = once.
Proof. split; reflexivity. Qed.

(** ** The statements after the inner [try] *)

(** C9: no run of [executeRegister] reaches the statements that follow the
    inner [try]: whatever stands there, every run is the same, for every
    input, every state and every behaviour of the collaborators. *)
Theorem trailing_block_unreachable (env : Env)
    (tail1 tail2 : Prepared -> M Empty_set) (intent : RegisterIntent)
    (file : File) (w : World) :
  executeRegisterWith env tail1 intent file w
  = executeRegisterWith env tail2 intent file w.
Proof.
  unfold executeRegisterWith, tryCatch.
  replace (tryBlockWith env tail2 intent file w)
    with (tryBlockWith env tail1 intent file w); [reflexivity|].
  unfold tryBlockWith.
  apply bind_ext; intros p w1.
  apply bind_ext; intros _ w2.
  apply bind_empty.
Qed.

(** ** What every run keeps *)

Create HintDb workflow.

Lemma preserves_ret {A} (P : World -> Prop) (a : A) : preserves P (ret a).
Proof. intros w H. exact H. Qed.

Lemma preserves_throw {A} (P : World -> Prop) (e : Thrown) :
  preserves P (@throw A e).
Proof. intros w H. exact H. Qed.

Lemma preserves_return {A} (P : World -> Prop) (r : RegisterResult) :
  preserves P (@return_ A r).
Proof. intros w H. exact H. Qed.

Lemma preserves_bind {A B} (P : World -> Prop) (m : M A) (k : A -> M B) :
  preserves P m -> (forall a, preserves P (k a)) -> preserves P (bind m k).
Proof.
  intros Hm Hk w H. unfold bind.
  specialize (Hm w H). destruct (m w) as [[a|r|e] w']; simpl in *; auto.
  apply Hk, Hm.
Qed.

Lemma preserves_tryCatch {A} (P : World -> Prop) (m : M A)
    (h : Thrown -> M A) :
  preserves P m -> (forall e, preserves P (h e)) -> preserves P (tryCatch m h).
Proof.
  intros Hm Hh w H. unfold tryCatch.
  specialize (Hm w H). destruct (m w) as [[a|r|e] w']; simpl in *; auto.
  apply Hh, Hm.
Qed.

Lemma consistent_call {A} (s0 : RegisterState) (c : Call) (o : Outcome A) :
  preserves (consistent s0) (call c o).
Proof. intros w H. unfold call. destruct o; exact H. Qed.

Lemma consistent_setRegisterState (s0 : RegisterState)
    (f : RegisterState -> RegisterState) :
  preserves (consistent s0) (setRegisterState f).
Proof. intros w H. reflexivity. Qed.

#[local] Hint Resolve preserves_ret preserves_throw preserves_return
  preserves_bind preserves_tryCatch consistent_call
  consistent_setRegisterState : workflow.

Lemma ensureAeneid_consistent (s0 : RegisterState) (env : Env) :
  preserves (consistent s0) (ensureAeneid env).
Proof.
  unfold ensureAeneid. destruct (negb (chainId env =? 1315));
    auto with workflow.
Qed.

Lemma validateMetadata_consistent (s0 : RegisterState) (p : Prepared) :
  preserves (consistent s0) (validateMetadata p).
Proof.
  unfold validateMetadata.
  repeat match goal with
         | |- context [if ?b then _ else _] => destruct b
         end; auto with workflow.
Qed.

Lemma contractErrorHandler_consistent {A} (s0 : RegisterState) (env : Env)
    (e : Thrown) :
  preserves (consistent s0) (@contractErrorHandler env A e).
Proof.
  unfold contractErrorHandler.
  destruct e as [n m | s | |]; try destruct (includes m _);
    auto with workflow.
Qed.

#[local] Hint Resolve ensureAeneid_consistent validateMetadata_consistent
  contractErrorHandler_consistent : workflow.

Lemma stages_consistent (s0 : RegisterState) (env : Env)
    (intent : RegisterIntent) (file : File) :
  preserves (consistent s0) (stages env intent file).
Proof.
  unfold stages.
  repeat (first [ apply preserves_bind; [ | intro ] | progress cbv zeta ];
          auto with workflow).
Qed.

Lemma register_consistent (s0 : RegisterState) (env : Env) (p : Prepared) :
  preserves (consistent s0) (register env p).
Proof.
  unfold register.
  repeat (first [ apply preserves_bind; [ | intro ]
                | apply preserves_tryCatch; [ | intro ] ];
          auto with workflow).
Qed.

(** Whenever the outer [try] block ends, the state object is the one the
    log says was stored last. *)
Lemma tryBlock_consistent (s0 : RegisterState) (env : Env)
    (intent : RegisterIntent) (file : File) :
  preserves (consistent s0) (tryBlock env intent file).
Proof.
  unfold tryBlock, tryBlockWith, trailingBlock.
  repeat (first [ apply preserves_bind; [ | intro ] ];
          auto using stages_consistent, register_consistent with workflow).
Qed.

(** ** Where a [return] can come from *)

Lemma noReturn_ret {A} (a : A) : noReturn (ret a).
Proof. intros w r w'. discriminate. Qed.

Lemma noReturn_throw {A} (e : Thrown) : noReturn (@throw A e).
Proof. intros w r w'. discriminate. Qed.

Lemma noReturn_call {A} (c : Call) (o : Outcome A) : noReturn (call c o).
Proof. intros w r w'. unfold call. destruct o; discriminate. Qed.

Lemma noReturn_setRegisterState (f : RegisterState -> RegisterState) :
  noReturn (setRegisterState f).
Proof. intros w r w'. discriminate. Qed.

Lemma noReturn_bind {A B} (m : M A) (k : A -> M B) :
  noReturn m -> (forall a, noReturn (k a)) -> noReturn (bind m k).
Proof.
  intros Hm Hk w r w'. unfold bind.
  destruct (m w) as [[a|r1|e] w1] eqn:E.
  - apply Hk.
  - exfalso. exact (Hm _ _ _ E).
  - discriminate.
Qed.

Lemma noReturn_tryCatch {A} (m : M A) (h : Thrown -> M A) :
  noReturn m -> (forall e, noReturn (h e)) -> noReturn (tryCatch m h).
Proof.
  intros Hm Hh w r w'. unfold tryCatch.
  destruct (m w) as [[a|r1|e] w1] eqn:E.
  - discriminate.
  - exfalso. exact (Hm _ _ _ E).
  - apply Hh.
Qed.

#[local] Hint Resolve noReturn_ret noReturn_throw noReturn_call
  noReturn_setRegisterState noReturn_bind noReturn_tryCatch : workflow.

Lemma stages_noReturn (env : Env) (intent : RegisterIntent) (file : File) :
  noReturn (stages env intent file).
Proof.
  unfold stages.
  apply noReturn_bind;
    [ unfold ensureAeneid; destruct (negb (chainId env =? 1315));
      auto with workflow | intro ].
  repeat (first [ apply noReturn_bind; [ | intro ] | progress cbv zeta ];
          auto with workflow).
Qed.

Lemma validateMetadata_noReturn (p : Prepared) :
  noReturn (validateMetadata p).
Proof.
  unfold validateMetadata.
  repeat match goal with
         | |- context [if ?b then _ else _] => destruct b
         end; auto with workflow.
Qed.

Lemma contractErrorHandler_noReturn {A} (env : Env) (e : Thrown) :
  noReturn (@contractErrorHandler env A e).
Proof.
  unfold contractErrorHandler.
  destruct e as [n m | s | |]; try destruct (includes m _);
    auto with workflow.
Qed.

(** The only [return] of lines 158-214 follows the update of line 175. *)
Lemma register_return (env : Env) (p : Prepared) (w w' : World)
    (r : RegisterResult) :
  register env p w = (Return r, w') ->
  isSuccessState (state w') /\ succeeded r = true.
Proof.
  unfold register, bind, tryCatch, call, setRegisterState.
  destruct (getClient env) as [[]|e0]; [|discriminate].
  destruct (mintAndRegisterIp env (mintRequest env p)) as [result|e1].
  - simpl.
    destruct (toHttps env (ipMetaCid p)) as [u1|e2]; simpl.
    + destruct (toHttps env (nftMetaCid p)) as [u2|e3]; simpl.
      * unfold return_. intros H. injection H as <- <-. simpl.
        split; [exists result|]; reflexivity.
      * intros H. exfalso.
        exact (contractErrorHandler_noReturn env e3 _ _ _ H).
    + intros H. exfalso.
      exact (contractErrorHandler_noReturn env e2 _ _ _ H).
  - intros H. exfalso.
    exact (contractErrorHandler_noReturn env e1 _ _ _ H).
Qed.

Lemma tryBlock_return (env : Env) (tail : Prepared -> M Empty_set)
    (intent : RegisterIntent) (file : File) (w w' : World)
    (r : RegisterResult) :
  tryBlockWith env tail intent file w = (Return r, w') ->
  isSuccessState (state w') /\ succeeded r = true.
Proof.
  unfold tryBlockWith. unfold bind at 1.
  destruct (stages env intent file w) as [[p|r1|e1] w1] eqn:E1;
    [ | intros _; exfalso; exact (stages_noReturn _ _ _ _ _ _ E1)
      | discriminate ].
  unfold bind at 1.
  destruct (validateMetadata p w1) as [[[]|r2|e2] w2] eqn:E2;
    [ | intros _; exfalso; exact (validateMetadata_noReturn _ _ _ _ E2)
      | discriminate ].
  unfold bind.
  destruct (register env p w2) as [[[]|r3|e3] w3] eqn:E3; [ | discriminate ].
  intros H. injection H as <- <-. exact (register_return _ _ _ _ _ E3).
Qed.

(** [executeRegister] ends by [return], in a success state or in an error
    state. *)
Lemma execute_cases (env : Env) (intent : RegisterIntent) (file : File)
    (w : World) :
  exists r w',
    executeRegister env intent file w = (Return r, w')
    /\ ((isSuccessState (state w') /\ succeeded r = true)
        \/ (status (state w') = Error /\ succeeded r = false)).
Proof.
  unfold executeRegister.
  destruct (tryBlockWith env trailingBlock intent file w)
    as [[[]|r|e] w1] eqn:E.
  - exists r, w1. split; [exact (execute_on_return _ _ _ _ _ _ _ E)|].
    left. exact (tryBlock_return _ _ _ _ _ _ _ E).
  - eexists _, _. split; [exact (execute_on_throw _ _ _ _ _ _ _ E)|].
    right. split; reflexivity.
Qed.

(** ** Failures *)

(** C2, as the code has it: when a stage throws, [executeRegister] does
    not rethrow; it returns [{ success: false, error }] with
    [error?.message || String(error)] as the message, sets [status] to
    error and stores the caught value itself in [error].  When the caught
    value is an Error with a non-empty message, as the errors raised by
    [executeRegister] are, the message returned is that message. *)
Theorem failure_is_reported (env : Env) (intent : RegisterIntent)
    (file : File) (s0 : RegisterState) (e : Thrown) (w' : World) :
  run (tryBlock env intent file) s0 = (Throw e, w') ->
  let r := run (executeRegister env intent file) s0 in
  settled (fst r) = Resolved (Failed (describe e))
  /\ status (finalState r) = Error
  /\ error (finalState r) = e
  /\ (forall name message,
        e = TError name message -> truthy message = true ->
        describe e = message).
Proof.
  intros H r. subst r. unfold run, executeRegister in *.
  rewrite (execute_on_throw _ _ _ _ _ _ _ H).
  repeat split. intros n m -> Hm. exact (truthy_describe n m Hm).
Qed.

Lemma failure_is_reported_witness :
  let failure := newError "compression failed" in
  let r := run (executeRegister (Mock.compressionFails failure)
                                Mock.intent Mock.file) initialState in
  settled (fst r) = Resolved (Failed "compression failed")
  /\ status (finalState r) = Error
  /\ error (finalState r) = failure
  /\ (forall name message,
        failure = TError name message -> truthy message = true ->
        describe failure = message).
Proof.
  apply (failure_is_reported
           (Mock.compressionFails (newError "compression failed"))
           Mock.intent Mock.file initialState
           (newError "compression failed")
           (mkWorld (plainState Compressing 10)
              [ Called (CCompressImage Mock.file) false;
                SetState (plainState Compressing 10) ])).
  reflexivity.
Defined.

(** C2 as stated fails: the compressor rejects with [null]; the run ends
    with status error while [error] is [null], not a description. *)
Lemma null_rejection_stores_null :
  let r := run (executeRegister (Mock.compressionFails TNull)
                                Mock.intent Mock.file) initialState in
  fst (run (tryBlock (Mock.compressionFails TNull) Mock.intent Mock.file)
           initialState) = Throw TNull
  /\ settled (fst r) = Resolved (Failed "null")
  /\ status (finalState r) = Error
  /\ error (finalState r) = TNull.
Proof. repeat split. Qed.

(** C10: on the transition to the error state, [progress], [ipId] and
    [txHash] keep the values of the state stored last before the failure
    (the state at the call when nothing was stored yet); only [status]
    and [error] change, and [progress] is not reset to 0. *)
Theorem error_keeps_other_fields (env : Env) (intent : RegisterIntent)
    (file : File) (s0 : RegisterState) (e : Thrown) (w' : World) :
  run (tryBlock env intent file) s0 = (Throw e, w') ->
  let r := run (executeRegister env intent file) s0 in
  let before := latest s0 (log w') in
  state w' = before
  /\ finalState r = mkState Error (progress before) e
                            (ipId before) (txHash before)
  /\ progress (finalState r) = progress before
  /\ ipId (finalState r) = ipId before
  /\ txHash (finalState r) = txHash before
  /\ trace r = (rev (log w') ++ [SetState (finalState r)])%list.
Proof.
  intros H r before. subst r before.
  assert (Hc : consistent s0 w').
  { change w' with (snd (Throw (A := Empty_set) e, w')). rewrite <- H.
    apply tryBlock_consistent. reflexivity. }
  unfold run, executeRegister in *.
  rewrite (execute_on_throw _ _ _ _ _ _ _ H).
  unfold consistent in Hc. unfold finalState, trace. simpl.
  rewrite <- Hc. repeat split.
Qed.

Lemma error_keeps_other_fields_witness :
  let failure := newError "nonce too low" in
  let r := run (executeRegister (Mock.mintFails failure)
                                Mock.intent Mock.file) initialState in
  let w' := snd (run (tryBlock (Mock.mintFails failure)
                               Mock.intent Mock.file) initialState) in
  let before := latest initialState (log w') in
  state w' = before
  /\ finalState r = mkState Error (progress before) failure
                            (ipId before) (txHash before)
  /\ progress (finalState r) = progress before
  /\ ipId (finalState r) = ipId before
  /\ txHash (finalState r) = txHash before
  /\ trace r = (rev (log w') ++ [SetState (finalState r)])%list.
Proof.
  apply (error_keeps_other_fields (Mock.mintFails (newError "nonce too low"))
           Mock.intent Mock.file initialState (newError "nonce too low")).
  vm_compute. reflexivity.
Defined.

(** A remote call that fails leaves [progress] at 75. *)
Example progress_after_failed_mint :
  progress (finalState (run (executeRegister
                               (Mock.mintFails (newError "nonce too low"))
                               Mock.intent Mock.file) initialState)) = 75.
Proof. reflexivity. Qed.

(** ** Reachable states *)

(** C8 at a failing input: a registration succeeds, then a second call
    finds the wallet on another chain and the switch is refused.  The state
    reached has status error and still carries the [ipId] and [txHash] (and
    the progress 100) of the first call: line 57 throws before line 60
    resets the state. *)
Theorem stale_identifiers_after_refused_switch :
  reachable Mock.afterRefusedSwitch
  /\ Mock.afterRefusedSwitch
     = mkState Error 100 (newError networkSwitchError)
               (Some "0xABC") (Some "0xDEF").
Proof.
  split; [|reflexivity].
  unfold Mock.afterRefusedSwitch, Mock.afterSuccess.
  do 2 apply reachable_execute. apply reachable_initial.
Qed.


(** ** Rejected calls *)

Lemma allResolved_app (l1 l2 : list Event) :
  allResolved (l1 ++ l2) = allResolved l1 && allResolved l2.
Proof.
  induction l1 as [|[c ok|s] l1 IH]; simpl; [reflexivity | | assumption].
  rewrite IH. apply andb_assoc.
Qed.

Lemma allResolved_rev (l : list Event) : allResolved (rev l) = allResolved l.
Proof.
  induction l as [|[c ok|s] l IH]; simpl; [reflexivity | | ];
    rewrite allResolved_app, IH; simpl.
  - rewrite andb_true_r. apply andb_comm.
  - apply andb_true_r.
Qed.

Lemma resolved_ret {A} (a : A) : resolvedUnlessThrown (ret a).
Proof. intros w H _. exact H. Qed.

Lemma resolved_return {A} (r : RegisterResult) :
  resolvedUnlessThrown (@return_ A r).
Proof. intros w H _. exact H. Qed.

Lemma resolved_throw {A} (e : Thrown) : resolvedUnlessThrown (@throw A e).
Proof. intros w _ H. discriminate. Qed.

Lemma resolved_setRegisterState (f : RegisterState -> RegisterState) :
  resolvedUnlessThrown (setRegisterState f).
Proof. intros w H _. exact H. Qed.

Lemma resolved_call {A} (c : Call) (o : Outcome A) :
  resolvedUnlessThrown (call c o).
Proof.
  intros w H. unfold call. destruct o; simpl; [auto | discriminate].
Qed.

Lemma resolved_bind {A B} (m : M A) (k : A -> M B) :
  resolvedUnlessThrown m -> (forall a, resolvedUnlessThrown (k a)) ->
  resolvedUnlessThrown (bind m k).
Proof.
  intros Hm Hk w H. specialize (Hm w H). unfold bind.
  destruct (m w) as [[a|r|e] w1]; simpl in *; auto.
  intros Hk'. apply Hk; auto.
Qed.

Lemma resolved_tryCatch {A} (m : M A) (h : Thrown -> M A) :
  resolvedUnlessThrown m -> (forall e, alwaysThrows (h e)) ->
  resolvedUnlessThrown (tryCatch m h).
Proof.
  intros Hm Hh w H. specialize (Hm w H). unfold tryCatch.
  destruct (m w) as [[a|r|e] w1]; simpl in *; auto.
  intros Hn. rewrite (Hh e w1) in Hn. discriminate.
Qed.

Lemma alwaysThrows_throw {A} (e : Thrown) : alwaysThrows (@throw A e).
Proof. intros w. reflexivity. Qed.

Lemma alwaysThrows_contractErrorHandler {A} (env : Env) (e : Thrown) :
  alwaysThrows (@contractErrorHandler env A e).
Proof.
  intros w. unfold contractErrorHandler.
  destruct e as [n m | s | |]; try destruct (includes m _); reflexivity.
Qed.

#[local] Hint Resolve resolved_ret resolved_return resolved_throw
  resolved_setRegisterState resolved_call resolved_bind resolved_tryCatch
  alwaysThrows_throw alwaysThrows_contractErrorHandler : workflow.

Lemma tryBlock_resolved (env : Env) (intent : RegisterIntent) (file : File) :
  resolvedUnlessThrown (tryBlock env intent file).
Proof.
  unfold tryBlock, tryBlockWith, trailingBlock.
  apply resolved_bind; [ | intro p ].
  - unfold stages.
    apply resolved_bind;
      [ unfold ensureAeneid; destruct (negb (chainId env =? 1315));
        auto with workflow | intro ].
    repeat (first [ apply resolved_bind; [ | intro ] | progress cbv zeta ];
            auto with workflow).
  - apply resolved_bind; [ | intro ].
    + unfold validateMetadata.
      repeat match goal with
             | |- context [if ?b then _ else _] => destruct b
             end; auto with workflow.
    + unfold register.
      repeat (first [ apply resolved_bind; [ | intro ]
                    | apply resolved_tryCatch; [ | intro ] ];
              auto with workflow).
Qed.

(** A rejected call makes the run fail: when some call of the run was
    rejected, the outer [try] block threw, and [executeRegister] returns
    [{ success: false, error }] in the error state. *)
Theorem rejected_call_fails (env : Env) (intent : RegisterIntent)
    (file : File) (s0 : RegisterState) :
  let r := run (executeRegister env intent file) s0 in
  allResolved (trace r) = false ->
  exists e,
    fst (run (tryBlock env intent file) s0) = Throw e
    /\ settled (fst r) = Resolved (Failed (describe e))
    /\ finalState r
       = withError e (finalState (run (tryBlock env intent file) s0)).
Proof.
  intros r. subst r. unfold run, executeRegister, tryBlock.
  pose proof (tryBlock_resolved env intent file (mkWorld s0 []) eq_refl)
    as Hres. unfold tryBlock in Hres.
  destruct (tryBlockWith env trailingBlock intent file (mkWorld s0 []))
    as [[[]|r|e] w1] eqn:E.
  - rewrite (execute_on_return _ _ _ _ _ _ _ E).
    unfold trace. simpl in *. rewrite allResolved_rev.
    rewrite (Hres eq_refl). discriminate.
  - rewrite (execute_on_throw _ _ _ _ _ _ _ E). intros _.
    exists e. repeat split.
Qed.

Lemma rejected_call_fails_witness :
  let failing := Mock.compressionFails (TString "out of memory") in
  let r := run (executeRegister failing Mock.intent Mock.file) initialState in
  exists e,
    fst (run (tryBlock failing Mock.intent Mock.file) initialState) = Throw e
    /\ settled (fst r) = Resolved (Failed (describe e))
    /\ finalState r
       = withError e (finalState (run (tryBlock failing Mock.intent Mock.file)
                                      initialState)).
Proof.
  apply (rejected_call_fails (Mock.compressionFails (TString "out of memory"))
           Mock.intent Mock.file initialState).
  reflexivity.
Defined.

(** A wallet on another chain that accepts the switch: the request is the
    first event of the run, which then goes on to success. *)
Example accepted_switch_then_success :
  let r := run (executeRegister Mock.switchAccepted Mock.intent Mock.file)
               initialState in
  hd_error (trace r) = Some (Called (CSwitchChain 1315) true)
  /\ map progress (updates (trace r)) = [10; 25; 50; 60; 75; 100]
  /\ status (finalState r) = Success.
Proof. vm_compute. repeat split. Qed.

(** * Properties of every run *)

(** ** Exploring the paths of a run *)

Lemma wp_ret {A} (a : A) (Q : Completion A * World -> Prop) (w : World) :
  Q (Normal a, w) -> wp (ret a) Q w.
Proof. exact (fun H => H). Qed.

Lemma wp_throw {A} (e : Thrown) (Q : Completion A * World -> Prop)
    (w : World) :
  Q (Throw e, w) -> wp (throw e) Q w.
Proof. exact (fun H => H). Qed.

Lemma wp_return {A} (r : RegisterResult) (Q : Completion A * World -> Prop)
    (w : World) :
  Q (Return r, w) -> wp (return_ r) Q w.
Proof. exact (fun H => H). Qed.

Lemma wp_setRegisterState (f : RegisterState -> RegisterState)
    (Q : Completion unit * World -> Prop) (s : RegisterState)
    (l : list Event) :
  Q (Normal tt, mkWorld (f s) (SetState (f s) :: l)) ->
  wp (setRegisterState f) Q (mkWorld s l).
Proof. exact (fun H => H). Qed.

Lemma wp_call {A} (c : Call) (o : Outcome A)
    (Q : Completion A * World -> Prop) (s : RegisterState) (l : list Event) :
  (forall a, o = Resolved a -> Q (Normal a, mkWorld s (Called c true :: l))) ->
  (forall e, o = Rejected e -> Q (Throw e, mkWorld s (Called c false :: l))) ->
  wp (call c o) Q (mkWorld s l).
Proof.
  intros Hr He. unfold wp, call. destruct o as [a|e]; simpl; auto.
Qed.

Lemma wp_bind {A B} (m : M A) (k : A -> M B)
    (Q : Completion B * World -> Prop) (w : World) :
  wp m (fun x => match x with
                 | (Normal a, w') => wp (k a) Q w'
                 | (Return r, w') => Q (Return r, w')
                 | (Throw e, w') => Q (Throw e, w')
                 end) w ->
  wp (bind m k) Q w.
Proof.
  unfold wp, bind. destruct (m w) as [[a|r|e] w']; exact (fun H => H).
Qed.

Lemma wp_tryCatch {A} (m : M A) (h : Thrown -> M A)
    (Q : Completion A * World -> Prop) (w : World) :
  wp m (fun x => match x with
                 | (Normal a, w') => Q (Normal a, w')
                 | (Return r, w') => Q (Return r, w')
                 | (Throw e, w') => wp (h e) Q w'
                 end) w ->
  wp (tryCatch m h) Q w.
Proof.
  unfold wp, tryCatch. destruct (m w) as [[a|r|e] w']; exact (fun H => H).
Qed.

Lemma contractErrorHandler_rethrows {A} (env : Env) (e : Thrown) (w : World) :
  @contractErrorHandler env A e w = (Throw (rethrown env e), w).
Proof.
  destruct e as [n m | s | |]; simpl;
    try destruct (includes m "execution reverted"); reflexivity.
Qed.

Lemma wp_contractErrorHandler {A} (env : Env) (e : Thrown)
    (Q : Completion A * World -> Prop) (w : World) :
  Q (Throw (rethrown env e), w) -> wp (contractErrorHandler env e) Q w.
Proof. unfold wp. rewrite contractErrorHandler_rethrows. exact (fun H => H). Qed.

Lemma wp_if {A} (b : bool) (m1 m2 : M A) (Q : Completion A * World -> Prop)
    (w : World) :
  (b = true -> wp m1 Q w) -> (b = false -> wp m2 Q w) ->
  wp (if b then m1 else m2) Q w.
Proof. destruct b; auto. Qed.

(** One step of the exploration: a statement is run, a call or a test
    splits the path in two. *)
Ltac explore_step :=
  lazymatch goal with
  | |- wp (bind _ _) _ _ => apply wp_bind
  | |- wp (tryCatch _ _) _ _ => apply wp_tryCatch
  | |- wp (setRegisterState _) _ _ => apply wp_setRegisterState
  | |- wp (call _ _) _ _ => apply wp_call; intros ? ?
  | |- wp (ret _) _ _ => apply wp_ret
  | |- wp (throw _) _ _ => apply wp_throw
  | |- wp (return_ _) _ _ => apply wp_return
  | |- wp (contractErrorHandler _ _) _ _ => apply wp_contractErrorHandler
  | |- wp (topLevelHandler _) _ _ => unfold topLevelHandler
  | |- wp (if _ then _ else _) _ _ => apply wp_if; intros ?
  end; cbv beta iota zeta.

(** All the paths of [executeRegister] from the state [s0]. *)
Ltac explore :=
  unfold run, executeRegister, executeRegisterWith, tryBlock, tryBlockWith,
    trailingBlock, stages, ensureAeneid, validateMetadata, register;
  repeat explore_step.

Lemma run_wp (env : Env) (intent : RegisterIntent) (file : File)
    (s0 : RegisterState) (Q : Completion Empty_set * World -> Prop) :
  wp (executeRegister env intent file) Q (mkWorld s0 []) ->
  Q (run (executeRegister env intent file) s0).
Proof. exact (fun H => H). Qed.

(** ** The state machine *)

(** In every run, whatever the collaborators do, the states stored are the
    first stages of the pipeline compressing (10), uploading-image (25),
    creating-metadata (50), uploading-metadata (60), minting (75), success
    (100), in that order, followed by one error state that keeps the
    progress of the state before it; only a run that stores all six stages
    can end without the error state. *)
Theorem stages_follow_pipeline (env : Env) (intent : RegisterIntent)
    (file : File) (s0 : RegisterState) :
  let r := run (executeRegister env intent file) s0 in
  let stored := map stagePair (updates (trace r)) in
  stored = pipeline
  \/ exists n, (n <= 6)%nat
               /\ stored = (firstn n pipeline
                            ++ [(Error, progressAfter (progress s0) n)])%list.
Proof.
  intros r stored. subst stored r.
  apply (run_wp env intent file s0
           (fun x => map stagePair (updates (trace x)) = pipeline
                     \/ exists n, (n <= 6)%nat
                          /\ map stagePair (updates (trace x))
                             = (firstn n pipeline
                                ++ [(Error, progressAfter (progress s0) n)])%list)).
  explore;
    first [ left; reflexivity
          | right; exists 0%nat; split; [lia | reflexivity]
          | right; exists 1%nat; split; [lia | reflexivity]
          | right; exists 2%nat; split; [lia | reflexivity]
          | right; exists 3%nat; split; [lia | reflexivity]
          | right; exists 4%nat; split; [lia | reflexivity]
          | right; exists 5%nat; split; [lia | reflexivity]
          | right; exists 6%nat; split; [lia | reflexivity] ].
Qed.

(** Once the network guard is passed, a run does not depend on the state
    it starts from: line 60 replaces the state before anything reads it, so
    the result, the final state and the trace are the same from any two
    states. *)
Theorem run_independent_of_state (env : Env) (intent : RegisterIntent)
    (file : File) (s0 s1 : RegisterState) :
  networkReady env = true ->
  run (executeRegister env intent file) s0
  = run (executeRegister env intent file) s1.
Proof.
  intros Hnet.
  assert (Hst : stages env intent file (mkWorld s0 [])
                = stages env intent file (mkWorld s1 [])).
  { unfold stages.
    apply (step_normal _ _ _ _ _ _ (ensureAeneid_ready env _ Hnet)).
    apply step_setRegisterState. symmetry.
    apply (step_normal _ _ _ _ _ _ (ensureAeneid_ready env _ Hnet)).
    apply step_setRegisterState. reflexivity. }
  unfold run, executeRegister, executeRegisterWith, tryCatch, tryBlockWith.
  unfold bind at 1 3. rewrite Hst. reflexivity.
Qed.

Lemma run_independent_of_state_witness :
  run (executeRegister Mock.switchAccepted Mock.intent Mock.file)
      Mock.afterRefusedSwitch
  = run (executeRegister Mock.switchAccepted Mock.intent Mock.file)
        initialState.
Proof.
  apply (run_independent_of_state Mock.switchAccepted Mock.intent Mock.file).
  reflexivity.
Defined.

(** ** The calls of a run *)

(** The wallet is asked to switch chains exactly when the chain is not
    1315: on chain 1315 no run makes the request; on any other chain every
    run makes it once, before any other call. *)
Theorem switch_requested_on_wrong_chain (env : Env) (intent : RegisterIntent)
    (file : File) (s0 : RegisterState) :
  let cs := calls (trace (run (executeRegister env intent file) s0)) in
  if chainId env =? 1315 then filter isSwitch cs = []
  else hd_error cs = Some (CSwitchChain 1315)
       /\ filter isSwitch cs = [CSwitchChain 1315].
Proof.
  intros cs. subst cs.
  apply (run_wp env intent file s0
           (fun x => if chainId env =? 1315
                     then filter isSwitch (calls (trace x)) = []
                     else hd_error (calls (trace x)) = Some (CSwitchChain 1315)
                          /\ filter isSwitch (calls (trace x))
                             = [CSwitchChain 1315])).
  explore;
    match goal with
    | H : negb (chainId env =? 1315) = _ |- _ =>
        destruct (chainId env =? 1315); simpl in H; try discriminate H
    end;
    repeat split.
Qed.

(** A rejected call ends the run: either every call of the run resolved,
    or the rejected call is the last call, all calls before it resolved, and
    the only thing that follows it is the state update of the top-level
    handler.  Nothing is retried and nothing is undone. *)
Theorem rejected_call_ends_run (env : Env) (intent : RegisterIntent)
    (file : File) (s0 : RegisterState) :
  let r := run (executeRegister env intent file) s0 in
  allResolved (trace r) = true
  \/ exists c s before,
       trace r = (before ++ [Called c false; SetState s])%list
       /\ allResolved before = true
       /\ status s = Error.
Proof.
  intros r. subst r.
  apply (run_wp env intent file s0
           (fun x => allResolved (trace x) = true
                     \/ exists c s before,
                          trace x
                          = (before ++ [Called c false; SetState s])%list
                          /\ allResolved before = true
                          /\ status s = Error)).
  explore; unfold trace; cbn [snd log];
    first [ left; reflexivity
          | right;
            match goal with
            | |- exists c s before,
                   rev (SetState ?s0 :: Called ?c0 false :: ?l) = _ /\ _ =>
                exists c0, s0, (rev l);
                split; [ simpl; rewrite <- ?app_assoc; reflexivity
                       | split; [ rewrite allResolved_rev | ]; reflexivity ]
            end ].
Qed.

(** [mintAndRegisterIp] is called at most once in a run, and only with a
    request that names the configured collection and the connected account,
    allows duplicates, and carries metadata URIs that start with [ipfs://]
    and hashes of the form [0x] plus 64 characters. *)
Theorem mint_request_is_checked (env : Env) (intent : RegisterIntent)
    (file : File) (s0 : RegisterState) :
  let requests :=
    mintRequests (trace (run (executeRegister env intent file) s0)) in
  (length requests <= 1)%nat /\ Forall (requestChecked env) requests.
Proof.
  intros requests. subst requests.
  apply (run_wp env intent file s0
           (fun x => (length (mintRequests (trace x)) <= 1)%nat
                     /\ Forall (requestChecked env) (mintRequests (trace x)))).
  explore; unfold trace; cbn [snd log]; simpl;
    (split; [ lia | ]);
    repeat constructor;
    repeat match goal with
           | H : negb _ = false |- _ => apply negb_false_iff in H
           end;
    assumption.
Qed.

(** Whatever is uploaded is what is hashed: the files given to [uploadFile]
    and to [sha256HexOfFile] are the compressor's output, never the original
    file; the objects given to [keccakOfJson] are, in order, the objects
    given to [uploadJSON], at most the last upload still waiting for its
    hash; and the remote call is made only once nothing is waiting. *)
Theorem uploaded_content_is_hashed (env : Env) (intent : RegisterIntent)
    (file : File) (s0 : RegisterState) :
  let t := trace (run (executeRegister env intent file) s0) in
  Forall (fun f => compressImage env file = Resolved f) (handledFiles t)
  /\ exists waiting,
       uploadedJson t = (hashedJson t ++ waiting)%list
       /\ (length waiting <= 1)%nat
       /\ (mintRequests t = [] \/ waiting = []).
Proof.
  intros t. subst t.
  apply (run_wp env intent file s0
           (fun x =>
              Forall (fun f => compressImage env file = Resolved f)
                     (handledFiles (trace x))
              /\ exists waiting,
                   uploadedJson (trace x)
                   = (hashedJson (trace x) ++ waiting)%list
                   /\ (length waiting <= 1)%nat
                   /\ (mintRequests (trace x) = [] \/ waiting = []))).
  explore; unfold trace; cbn [snd log]; simpl;
    (split; [ repeat constructor; assumption | ]);
    eexists; (split; [ reflexivity | ]); simpl; (split; [ lia | ]);
    first [ left; reflexivity | right; reflexivity ].
Qed.

(** What is registered is what was uploaded: in any run, the request given
    to [mintAndRegisterIp] carries the hashes [keccakOfJson] returned for
    the two objects given to [uploadJSON] and the URIs [toIpfsUri] returned
    for their content identifiers, and the second object, the NFT metadata,
    points to the URI of the first. *)
Theorem request_matches_uploaded_metadata (env : Env)
    (intent : RegisterIntent) (file : File) (s0 : RegisterState) :
  let t := trace (run (executeRegister env intent file) s0) in
  Forall
    (fun r =>
       exists ipMetadata nftMetadata ipUp nftUp ipId nftId,
         uploadedJson t = [JIp ipMetadata; JNft nftMetadata]
         /\ keccakOfJson env (JIp ipMetadata) = Resolved (ipMetadataHash r)
         /\ keccakOfJson env (JNft nftMetadata) = Resolved (nftMetadataHash r)
         /\ uploadJSON env (JIp ipMetadata) = Resolved ipUp
         /\ extractCid env (refOf ipUp) = Resolved ipId
         /\ toIpfsUri env ipId = Resolved (ipMetadataURI r)
         /\ uploadJSON env (JNft nftMetadata) = Resolved nftUp
         /\ extractCid env (refOf nftUp) = Resolved nftId
         /\ toIpfsUri env nftId = Resolved (nftMetadataURI r)
         /\ nftIpMetadataURI nftMetadata = ipMetadataURI r)
    (mintRequests t).
Proof.
  intros t. subst t.
  apply (run_wp env intent file s0
           (fun x =>
              Forall
                (fun r =>
                   exists ipMetadata nftMetadata ipUp nftUp ipId nftId,
                     uploadedJson (trace x) = [JIp ipMetadata; JNft nftMetadata]
                     /\ keccakOfJson env (JIp ipMetadata)
                        = Resolved (ipMetadataHash r)
                     /\ keccakOfJson env (JNft nftMetadata)
                        = Resolved (nftMetadataHash r)
                     /\ uploadJSON env (JIp ipMetadata) = Resolved ipUp
                     /\ extractCid env (refOf ipUp) = Resolved ipId
                     /\ toIpfsUri env ipId = Resolved (ipMetadataURI r)
                     /\ uploadJSON env (JNft nftMetadata) = Resolved nftUp
                     /\ extractCid env (refOf nftUp) = Resolved nftId
                     /\ toIpfsUri env nftId = Resolved (nftMetadataURI r)
                     /\ nftIpMetadataURI nftMetadata = ipMetadataURI r)
                (mintRequests (trace x)))).
  explore; unfold trace; cbn [snd log]; simpl;
    repeat constructor;
    do 6 eexists; unfold refOf;
    repeat (split; [ first [ reflexivity | eassumption ] | ]);
    reflexivity.
Qed.

(** ** The result and the state *)

(** What [executeRegister] returns agrees with the state it leaves: a
    success result comes with the state
    [{ status: 'success', progress: 100, error: null }] carrying the same
    [ipId] and [txHash]; a failure result comes with status error, and its
    message is [error?.message || String(error)] of the stored error. *)
Theorem result_matches_state (env : Env) (intent : RegisterIntent)
    (file : File) (s0 : RegisterState) :
  let r := run (executeRegister env intent file) s0 in
  match settled (fst r) with
  | Resolved (Registered i t _ _ _) =>
      finalState r = mkState Success 100 TNull i t
  | Resolved (Failed message) =>
      status (finalState r) = Error
      /\ message = describe (error (finalState r))
  | Rejected _ => False
  end.
Proof.
  intros r. subst r.
  apply (run_wp env intent file s0
           (fun x =>
              match settled (fst x) with
              | Resolved (Registered i t _ _ _) =>
                  finalState x = mkState Success 100 TNull i t
              | Resolved (Failed message) =>
                  status (finalState x) = Error
                  /\ message = describe (error (finalState x))
              | Rejected _ => False
              end)).
  explore; simpl; repeat split.
Qed.

(** ** Failures after the validation gate *)

Section AfterValidation.

Variables (env : Env) (intent : RegisterIntent) (file : File).
Variable v : Intermediate.
Variable s0 : RegisterState.

Hypothesis Hnet : networkReady env = true.
Hypothesis Hstages : stagesResolve env intent file v.
Hypothesis Hvalid : validMetadata (preparedOf v) = true.

(** A failure of [getClient] is not a contract error: line 158 stands
    before the inner [try], so the rejection reaches the top-level handler as
    it is, also when its message contains [execution reverted]; the remote
    call is not made and progress stays at 75. *)
Theorem client_failure_is_not_wrapped (e : Thrown) :
  getClient env = Rejected e ->
  let r := run (executeRegister env intent file) s0 in
  settled (fst r) = Resolved (Failed (describe e))
  /\ finalState r = mkState Error 75 e None None
  /\ mintInvoked (trace r) = false.
Proof.
  intros Hc r. subst r.
  assert (Hrun : tryBlock env intent file (mkWorld s0 [])
                 = (Throw e,
                    mkWorld (plainState Minting 75)
                      (Called CGetClient false
                       :: stagesLog env intent file v ++ switchLog env ++ []))).
  { unfold tryBlock, tryBlockWith.
    unfold bind at 1.
    rewrite (stages_resolved env intent file v Hnet Hstages).
    unfold bind at 1. rewrite (validateMetadata_passes _ _ Hvalid).
    unfold register, bind, call. rewrite Hc. reflexivity. }
  unfold run, executeRegister. unfold tryBlock in Hrun.
  rewrite (execute_on_throw _ _ _ _ _ _ _ Hrun).
  unfold trace, finalState, switchLog.
  destruct (negb (chainId env =? 1315)); repeat split.
Qed.

Hypothesis Hclient : getClient env = Resolved tt.

(** A gateway URL that cannot be built after the registration went through
    turns the run into a failure: when [mintAndRegisterIp] resolved and
    [toHttps] then throws for the IP or the NFT metadata identifier (lines
    188-189, inside the inner [try]), [executeRegister] returns
    [success: false], and the state, which line 175 had set to success,
    ends with status error while keeping progress 100 and the identifiers
    of the registration. *)
Theorem gateway_failure_after_registration (result : MintResult)
    (e : Thrown) :
  mintAndRegisterIp env (mintRequest env (preparedOf v)) = Resolved result ->
  toHttps env (ipCid v) = Rejected e
  \/ (exists ipUrl, toHttps env (ipCid v) = Resolved ipUrl
                    /\ toHttps env (nftCid v) = Rejected e) ->
  let r := run (executeRegister env intent file) s0 in
  settled (fst r) = Resolved (Failed (describe (rethrown env e)))
  /\ finalState r
     = mkState Error 100 (rethrown env e)
               (resultIpId result) (resultTxHash result)
  /\ In (Called (CMintAndRegisterIp (mintRequest env (preparedOf v))) true)
        (trace r).
Proof.
  intros Hm Hgw r. subst r.
  assert (Hrun : exists l,
             tryBlock env intent file (mkWorld s0 [])
             = (Throw (rethrown env e), mkWorld (successState result) l)
             /\ In (Called (CMintAndRegisterIp (mintRequest env (preparedOf v)))
                           true) l).
  { unfold tryBlock, tryBlockWith.
    unfold bind at 1.
    rewrite (stages_resolved env intent file v Hnet Hstages).
    unfold bind at 1. rewrite (validateMetadata_passes _ _ Hvalid).
    unfold register, bind, tryCatch, call, setRegisterState.
    rewrite Hclient, Hm. simpl.
    destruct Hgw as [Hi | (ipUrl & Hi & Hn)].
    - rewrite Hi. simpl. rewrite contractErrorHandler_rethrows.
      eexists. split; [reflexivity|]. simpl. auto.
    - rewrite Hi. simpl. rewrite Hn. simpl.
      rewrite contractErrorHandler_rethrows.
      eexists. split; [reflexivity|]. simpl. auto. }
  destruct Hrun as (l & Hrun & Hin).
  unfold run, executeRegister. unfold tryBlock in Hrun.
  rewrite (execute_on_throw _ _ _ _ _ _ _ Hrun).
  unfold trace, finalState. simpl. repeat split.
  apply in_or_app. left. apply in_rev in Hin. exact Hin.
Qed.

(** A rejection of the remote call that has no [message]: a thrown string
    reaches the top-level handler as it is; [null] and [undefined] do not,
    because reading [contractError.message] at line 193 throws, so the error
    that is stored and reported is that TypeError. *)
Theorem contract_error_without_message (e : Thrown) :
  mintAndRegisterIp env (mintRequest env (preparedOf v)) = Rejected e ->
  let r := run (executeRegister env intent file) s0 in
  (forall s, e = TString s ->
             finalState r = mkState Error 75 (TString s) None None
             /\ settled (fst r) = Resolved (Failed s))
  /\ (e = TNull \/ e = TUndefined ->
      finalState r
      = mkState Error 75 (TError "TypeError" (nullishReadMessage e)) None None
      /\ settled (fst r) = Resolved (Failed (nullishReadMessage e))).
Proof.
  intros Hm r. subst r.
  pose proof (tryBlock_contract_error env intent file v trailingBlock
                Hnet Hstages Hvalid e (mkWorld s0 []) Hclient Hm) as Hrun.
  rewrite contractErrorHandler_rethrows in Hrun.
  unfold run, executeRegister.
  rewrite (execute_on_throw _ _ _ _ _ _ _ Hrun).
  unfold finalState. split.
  - intros s ->. split; reflexivity.
  - intros [-> | ->]; split; reflexivity.
Qed.

End AfterValidation.

Lemma client_failure_is_not_wrapped_witness :
  let e := newError "execution reverted: client" in
  let r := run (executeRegister (Late.clientFails e) Mock.intent Mock.file)
               initialState in
  settled (fst r) = Resolved (Failed "execution reverted: client")
  /\ finalState r = mkState Error 75 e None None
  /\ mintInvoked (trace r) = false.
Proof.
  refine (client_failure_is_not_wrapped
            (Late.clientFails (newError "execution reverted: client"))
            Mock.intent Mock.file (Mock.values "ipfs://" Mock.hash32)
            initialState _ _ _
            (newError "execution reverted: client") _).
  - reflexivity.
  - repeat split.
  - reflexivity.
  - reflexivity.
Defined.

Lemma gateway_failure_after_registration_witness :
  let e := newError "invalid CID" in
  let env := Late.gatewayFails e in
  let v := Mock.values "ipfs://" Mock.hash32 in
  let r := run (executeRegister env Mock.intent Mock.file) initialState in
  settled (fst r) = Resolved (Failed "invalid CID")
  /\ finalState r = mkState Error 100 e (Some "0xABC") (Some "0xDEF")
  /\ In (Called (CMintAndRegisterIp (mintRequest env (preparedOf v))) true)
        (trace r).
Proof.
  refine (gateway_failure_after_registration
            (Late.gatewayFails (newError "invalid CID"))
            Mock.intent Mock.file (Mock.values "ipfs://" Mock.hash32)
            initialState _ _ _ _ Mock.minted (newError "invalid CID") _ _).
  - reflexivity.
  - repeat split.
  - reflexivity.
  - reflexivity.
  - reflexivity.
  - left. reflexivity.
Defined.

Lemma contract_error_without_message_witness :
  let r := run (executeRegister (Mock.mintFails TNull) Mock.intent Mock.file)
               initialState in
  (forall s, TNull = TString s ->
             finalState r = mkState Error 75 (TString s) None None
             /\ settled (fst r) = Resolved (Failed s))
  /\ (TNull = TNull \/ TNull = TUndefined ->
      finalState r
      = mkState Error 75 (TError "TypeError" (nullishReadMessage TNull))
                None None
      /\ settled (fst r) = Resolved (Failed (nullishReadMessage TNull))).
Proof.
  refine (contract_error_without_message
            (Mock.mintFails TNull) Mock.intent Mock.file
            (Mock.values "ipfs://" Mock.hash32) initialState
            _ _ _ _ TNull _).
  - reflexivity.
  - apply mock_stagesResolve.
  - reflexivity.
  - reflexivity.
  - reflexivity.
Defined.

(** ** The order of the calls and the objects uploaded *)

(** Tries the numbers from [n] on, at most [k] of them, as the length of a
    prefix. *)
Ltac prefix_of_length k n :=
  lazymatch k with
  | O => fail "no prefix"
  | S ?k' => first [ exists n; reflexivity | prefix_of_length k' (S n) ]
  end.

(** A run has no branches: apart from the switch request, the functions a
    run calls are, in order, a first part of the fixed list compressImage,
    uploadFile, extractCid, toHttps, sha256HexOfFile, uploadJSON,
    extractCid, toIpfsUri, keccakOfJson, uploadJSON, extractCid, toIpfsUri,
    keccakOfJson, getClient, mintAndRegisterIp, toHttps, toHttps. *)
Theorem calls_follow_fixed_order (env : Env) (intent : RegisterIntent)
    (file : File) (s0 : RegisterState) :
  let cs := calls (trace (run (executeRegister env intent file) s0)) in
  exists n,
    map callee (filter (fun c => negb (isSwitch c)) cs) = firstn n callOrder.
Proof.
  intros cs. subst cs.
  apply (run_wp env intent file s0
           (fun x => exists n,
                map callee (filter (fun c => negb (isSwitch c))
                                   (calls (trace x)))
                = firstn n callOrder)).
  explore; unfold trace; cbn [snd log]; simpl;
    prefix_of_length 18%nat 0%nat.
Qed.

(** At most two objects are given to [uploadJSON], the IP metadata first
    and the NFT metadata second.  The IP metadata describe the image of the
    run: [image] and [mediaUrl] are the gateway URL of the image that was
    uploaded, [imageHash] and [mediaHash] the SHA-256 of the compressed
    file, and the title and media type fall back on the name and type of the
    compressed file.  The NFT metadata carry the same image, a name made of
    the IP title, and one attribute that repeats their [ipMetadataURI]. *)
Theorem uploaded_metadata_describe_image (env : Env)
    (intent : RegisterIntent) (file : File) (s0 : RegisterState) :
  match uploadedJson (trace (run (executeRegister env intent file) s0)) with
  | [] => True
  | [JIp m] => describesImage env intent file m
  | [JIp m; JNft n] => describesImage env intent file m /\ belongsTo n m
  | _ => False
  end.
Proof.
  apply (run_wp env intent file s0
           (fun x =>
              match uploadedJson (trace x) with
              | [] => True
              | [JIp m] => describesImage env intent file m
              | [JIp m; JNft n] =>
                  describesImage env intent file m /\ belongsTo n m
              | _ => False
              end)).
  explore; unfold trace; cbn [snd log]; simpl;
    try exact I;
    try (split; [ | repeat split ]);
    do 3 eexists;
    repeat (split; [ first [ eassumption | reflexivity ] | ]);
    reflexivity.
Qed.

(** ** The length of a hash *)

(** The length that lines 151 and 154 compare with 66 is counted in UTF-16
    code units: a two-byte character counts once, a four-byte character
    twice. *)
Example jsLength_counts_code_units :
  jsLength "é" = 1%nat /\ String.length "é" = 2%nat
  /\ jsLength "€" = 1%nat /\ String.length "€" = 3%nat
  /\ jsLength "😀" = 2%nat /\ String.length "😀" = 4%nat.
Proof. repeat split. Qed.

(** A hash of 66 code units in 67 bytes passes the check of line 151; a
    hash of 65 code units in 66 bytes does not. *)
Example validHash_counts_code_units :
  validHash
    "0xé0112233445566778899aabbccddeeff00112233445566778899aabbccddeeff"
  = true
  /\ validHash
       "0xé112233445566778899aabbccddeeff00112233445566778899aabbccddeeff"
     = false.
Proof. vm_compute. split; reflexivity. Qed.

(** ** The error field of the states a call stores *)

(** In a call of [executeRegister] that runs from start to end without
    another call storing a state in between, every state the call stores,
    the in-flight ones included, has [error] [null] unless its status is
    error, whatever the state the call started from; so has the state left
    at the end of the call. *)
Theorem stored_error_only_with_error_status (env : Env)
    (intent : RegisterIntent) (file : File) (s0 : RegisterState) :
  let r := run (executeRegister env intent file) s0 in
  Forall (fun s => error s = TNull \/ status s = Error) (updates (trace r))
  /\ (error (finalState r) = TNull \/ status (finalState r) = Error)
  /\ latest s0 (rev (trace r)) = finalState r
  /\ updates (trace r) <> [].
Proof.
  intros r. subst r.
  apply (run_wp env intent file s0
           (fun x =>
              Forall (fun s => error s = TNull \/ status s = Error)
                     (updates (trace x))
              /\ (error (finalState x) = TNull \/ status (finalState x) = Error)
              /\ latest s0 (rev (trace x)) = finalState x
              /\ updates (trace x) <> [])).
  explore; unfold trace, finalState; cbn [snd log state];
    rewrite rev_involutive; simpl;
    (split;
     [ repeat (apply Forall_cons;
               [ first [ left; reflexivity | right; reflexivity ] | ]);
       apply Forall_nil
     | split; [ first [ left; reflexivity | right; reflexivity ]
              | split; [ reflexivity | discriminate ] ] ]).
Qed.
